(** * Price extractor of [data_pipeline.py]: a shallow embedding

    The development follows the extractor part of [src/data_pipeline.py]
    (lines 15-176): the Brazilian price text helpers, the JSON-LD block
    decoder, the name cascade, the price cascade and [parse_product].

    Conventions of the embedding.
    - A Python [str] is a list of characters ([list ascii]); a character
      outside ASCII is the sequence of its UTF-8 bytes, so that substring
      search, [split] and [replace] behave as on code points.  Only the
      ASCII members of Python's white space class are recognised by
      [strip] and by the [\s] and [\d] classes of [re].
    - A Python [float] is an exact rational with a sign bit, or one of the
      IEEE specials.  The binary rounding done by [float()] and by the
      [.2f] format is not modelled: [float_of_str] returns the decimal that
      is written, and [format_2f] rounds that decimal half-even to cents.
    - An exception is a value: functions that may raise return [res].
    - The library functions the script calls ([re.search], [str.replace],
      [json.loads], the [bs4] queries on an already parsed tree) are
      modelled next to the code that uses them; the HTML parser itself is
      not: a document enters as the tree [bs4] builds for it. *)

From Stdlib Require Import List Ascii String Bool Arith NArith ZArith QArith Lia.
Import ListNotations.

Set Implicit Arguments.
Set Warnings "-register-all".

(** ** Python strings *)

Definition str := list ascii.

Coercion list_ascii_of_string : string >-> list.

Close Scope Q_scope.
Open Scope nat_scope.
Open Scope string_scope.
Open Scope list_scope.

Module PyStr.

Definition eqb (a b : str) : bool :=
  if list_eq_dec ascii_dec a b then true else false.

(** [str.isspace] on one ASCII character: TAB, LF, VT, FF, CR, the four
    separators FS..US, and the space. *)
Definition is_space (c : ascii) : bool :=
  let n := nat_of_ascii c in
  (Nat.leb 9 n && Nat.leb n 13) || (Nat.leb 28 n && Nat.leb n 32).

Definition is_digit (c : ascii) : bool :=
  let n := nat_of_ascii c in Nat.leb 48 n && Nat.leb n 57.

Definition lower (c : ascii) : ascii :=
  let n := nat_of_ascii c in
  if Nat.leb 65 n && Nat.leb n 90 then ascii_of_nat (n + 32) else c.

Fixpoint lstrip (s : str) : str :=
  match s with
  | c :: s' => if is_space c then lstrip s' else s
  | [] => []
  end.

Definition rstrip (s : str) : str := rev (lstrip (rev s)).

(** [s.strip()] *)
Definition strip (s : str) : str := rstrip (lstrip s).

(** [s.startswith(p)] *)
Fixpoint startswith (p s : str) : bool :=
  match p, s with
  | [], _ => true
  | a :: p', b :: s' => Ascii.eqb a b && startswith p' s'
  | _ :: _, [] => false
  end.

(** [sub in s] *)
Fixpoint contains (sub s : str) : bool :=
  startswith sub s ||
  match s with
  | [] => false
  | _ :: s' => contains sub s'
  end.

(** [s.replace(old, new)] for a non-empty [old]: the occurrences are taken
    leftmost first and do not overlap.  [skip] counts the characters of
    the occurrence just replaced that are still to be passed over. *)
Fixpoint replace_from (old new : str) (skip : nat) (s : str) : str :=
  match s with
  | [] => []
  | c :: s' =>
      match skip with
      | S k => replace_from old new k s'
      | O =>
          if startswith old s
          then new ++ replace_from old new (List.length old - 1) s'
          else c :: replace_from old new 0 s'
      end
  end.

Definition replace (old new s : str) : str := replace_from old new 0 s.

(** [s.split(sep)[0]] for a non-empty [sep]: the text before the first
    occurrence of [sep], the whole of [s] when there is none. *)
Fixpoint split_head (sep s : str) : str :=
  match s with
  | [] => []
  | c :: s' => if startswith sep s then [] else c :: split_head sep s'
  end.

(** [sep.join(parts)] *)
Fixpoint join (sep : str) (parts : list str) : str :=
  match parts with
  | [] => []
  | [p] => p
  | p :: rest => p ++ sep ++ join sep rest
  end.

(** Truth value of a string: non-empty. *)
Definition truthy (s : str) : bool :=
  match s with [] => false | _ :: _ => true end.

(** [s or None] *)
Definition or_none (s : str) : option str :=
  if truthy s then Some s else None.

End PyStr.

(** ** The fragment of [re] that [BR_PRICE_RE] needs

    A backtracking matcher in continuation style: alternatives are tried
    in the order [re] tries them (a greedy repetition first tries one more
    iteration), and the first complete match found is the one returned. *)

Module Re.

Inductive regex :=
| Lit (c : ascii)            (* a literal character *)
| Digit                      (* \d *)
| Space                      (* \s *)
| Eps
| Seq (r1 r2 : regex)
| Alt (r1 r2 : regex)
| Star (r : regex).          (* greedy r* *)

(** Greedy [r?], [r{n}] and [r{1,3}]. *)
Definition Opt (r : regex) : regex := Alt r Eps.

Fixpoint Times (n : nat) (r : regex) : regex :=
  match n with
  | O => Eps
  | S k => Seq r (Times k r)
  end.

Definition OneToThree (r : regex) : regex := Seq r (Opt (Seq r (Opt r))).

Section Matcher.
Variable ignorecase : bool.
Variable X : Type.

Definition lit_matches (c d : ascii) : bool :=
  if ignorecase then Ascii.eqb (PyStr.lower c) (PyStr.lower d) else Ascii.eqb c d.

(** The loop of a greedy repetition: [m] matches the repeated expression
    once.  One more turn is tried first, and only a turn that consumes
    something counts; [k] takes over when no further turn leads to a match. *)
Fixpoint star_loop (m : str -> (str -> option X) -> option X)
    (k : str -> option X) (fuel : nat) (s : str) : option X :=
  match fuel with
  | O => k s
  | S fuel' =>
      match m s (fun s' =>
              if Nat.ltb (List.length s') (List.length s)
              then star_loop m k fuel' s' else None) with
      | Some x => Some x
      | None => k s
      end
  end.

(** [rmatch r s k]: match [r] at the head of [s], then run [k] on what is
    left; [None] makes the matcher backtrack. *)
Fixpoint rmatch (r : regex) (s : str) (k : str -> option X) {struct r} : option X :=
  match r with
  | Lit c =>
      match s with
      | d :: s' => if lit_matches c d then k s' else None
      | [] => None
      end
  | Digit =>
      match s with
      | d :: s' => if PyStr.is_digit d then k s' else None
      | [] => None
      end
  | Space =>
      match s with
      | d :: s' => if PyStr.is_space d then k s' else None
      | [] => None
      end
  | Eps => k s
  | Seq r1 r2 => rmatch r1 s (fun s' => rmatch r2 s' k)
  | Alt r1 r2 =>
      match rmatch r1 s k with
      | Some x => Some x
      | None => rmatch r2 s k
      end
  | Star r1 => star_loop (rmatch r1) k (List.length s) s
  end.

End Matcher.

(** [m.group(0)] of a match of [r] at the very start of [s]. *)
Definition match_at (ignorecase : bool) (r : regex) (s : str) : option str :=
  rmatch ignorecase r s
    (fun rest => Some (firstn (List.length s - List.length rest) s)).

(** [r.search(s)]: the match at the leftmost position that has one. *)
Fixpoint search (ignorecase : bool) (r : regex) (s : str) : option str :=
  match match_at ignorecase r s with
  | Some m => Some m
  | None =>
      match s with
      | [] => None
      | _ :: s' => search ignorecase r s'
      end
  end.

End Re.

(** ** Python floats and the two library conversions used on them *)

Module PyFloat.

(** A float: a finite value as sign bit and magnitude (a reduced fraction),
    an infinity, or not-a-number. *)
Inductive pyfloat :=
| Fin (neg : bool) (mag : Q)
| Inf (neg : bool)
| NaN.

(** The float that stands for [k] hundredths, [k >= 0]. *)
Definition of_cents (k : N) : pyfloat := Fin false (Qred (Qmake (Z.of_N k) 100)).

(** The float that stands for minus [k] hundredths. *)
Definition of_neg_cents (k : N) : pyfloat := Fin true (Qred (Qmake (Z.of_N k) 100)).

Definition is_zero (q : Q) : bool := Z.eqb (Qnum q) 0.

(** *** Decimal digits *)

Definition digit_val (c : ascii) : N := N.of_nat (nat_of_ascii c - 48).

Definition digit_char (d : N) : ascii := ascii_of_nat (48 + N.to_nat d).

Definition N_of_digits (ds : str) : N :=
  fold_left (fun a c => (10 * a + digit_val c)%N) ds 0%N.

Fixpoint digits_from (fuel : nat) (n : N) (acc : str) : str :=
  let acc' := digit_char (n mod 10) :: acc in
  match fuel with
  | O => acc'
  | S fuel' => if (n <? 10)%N then acc' else digits_from fuel' (n / 10) acc'
  end.

(** The decimal digits of [n], without leading zeros ("0" for zero). *)
Definition str_of_N (n : N) : str := digits_from (N.to_nat (N.log2 n)) n [].

(** *** [float(s)] *)

(** A digit part of a float literal: digits, single underscores allowed
    between two digits.  Returns the digits and the unread rest. *)
Fixpoint digitpart (s : str) : str * str :=
  match s with
  | c :: s' =>
      if PyStr.is_digit c then
        match s' with
        | u :: ((d :: _) as s'') =>
            if Ascii.eqb u "_" && PyStr.is_digit d
            then let '(ds, r) := digitpart s'' in (c :: ds, r)
            else let '(ds, r) := digitpart s' in (c :: ds, r)
        | _ => let '(ds, r) := digitpart s' in (c :: ds, r)
        end
      else ([], s)
  | [] => ([], [])
  end.

(** An optional sign: is it a minus, and the text after it. *)
Definition take_sign (s : str) : bool * str :=
  match s with
  | c :: t =>
      if Ascii.eqb c "+" then (false, t)
      else if Ascii.eqb c "-" then (true, t)
      else (false, s)
  | [] => (false, [])
  end.

(** The exponent part, when there is one: [e] or [E], a sign, a digit part. *)
Definition exponent (s : str) : option (Z * str) :=
  match s with
  | c :: s' =>
      if Ascii.eqb (PyStr.lower c) "e"%char then
        let '(neg, s1) := take_sign s' in
        let '(ds, r) := digitpart s1 in
        match ds with
        | [] => None
        | _ => Some (if neg then (- Z.of_N (N_of_digits ds))%Z
                     else Z.of_N (N_of_digits ds), r)
        end
      else Some (0%Z, s)
  | [] => Some (0%Z, [])
  end.

(** [m * 10^e] as a reduced fraction. *)
Definition scale10 (m : N) (e : Z) : Q :=
  Qred (if (0 <=? e)%Z
        then Qmake (Z.of_N m * 10 ^ e) 1
        else Qmake (Z.of_N m) (Z.to_pos (10 ^ (- e)))).

(** The fraction of a literal: the digit part after a dot, when the text
    goes on with a dot. *)
Definition fraction (s : str) : str * str :=
  match s with
  | c :: t => if Ascii.eqb c "." then digitpart t else ([], s)
  | [] => ([], [])
  end.

(** [float(s)]: [None] stands for [ValueError]. *)
Definition float_of_str (s : str) : option pyfloat :=
  let '(neg, s1) := take_sign (PyStr.strip s) in
  let low := map PyStr.lower s1 in
  if PyStr.eqb low "inf" || PyStr.eqb low "infinity" then Some (Inf neg)
  else if PyStr.eqb low "nan" then Some NaN
  else
    let '(ip, r1) := digitpart s1 in
    let '(fp, r2) := fraction r1 in
    match ip ++ fp with
    | [] => None
    | ds =>
        match exponent r2 with
        | Some (e, []) =>
            Some (Fin neg (scale10 (N_of_digits ds) (e - Z.of_nat (List.length fp))))
        | _ => None
        end
    end.

(** *** The format specification [,.2f] *)

(** The magnitude in hundredths, rounded half to even. *)
Definition cents_of (q : Q) : N :=
  let n := (Z.to_N (Qnum q) * 100)%N in
  let d := Npos (Qden q) in
  let k := (n / d)%N in
  let r := (n mod d)%N in
  match (2 * r ?= d)%N with
  | Lt => k
  | Gt => (k + 1)%N
  | Eq => if N.even k then k else (k + 1)%N
  end.

(** [n] as a top group below 1000 and the following groups of three. *)
Fixpoint chunks (fuel : nat) (n : N) (acc : list N) : N * list N :=
  match fuel with
  | O => (n, acc)
  | S fuel' =>
      if (n <? 1000)%N then (n, acc)
      else chunks fuel' (n / 1000) ((n mod 1000)%N :: acc)
  end.

Definition pad2 (n : N) : str := [digit_char (n / 10); digit_char (n mod 10)].

Definition pad3 (n : N) : str :=
  [digit_char (n / 100); digit_char ((n / 10) mod 10); digit_char (n mod 10)].

(** Groups of three digits, each after the separator [sep]. *)
Definition sep_groups (sep : ascii) (gs : list N) : str :=
  flat_map (fun g => sep :: pad3 g) gs.

Definition split_groups (n : N) : N * list N := chunks (N.to_nat (N.log2 n)) n [].

(** The integer [n] with a comma between groups of three digits. *)
Definition grouped (n : N) : str :=
  let '(top, gs) := split_groups n in
  str_of_N top ++ sep_groups "," gs.

(** [format(v, ",.2f")] *)
Definition format_2f (v : pyfloat) : str :=
  match v with
  | Fin neg q =>
      let k := cents_of q in
      (if neg then ("-" : str) else []) ++ grouped (k / 100) ++ "." ++ pad2 (k mod 100)
  | Inf neg => if neg then "-inf" else "inf"
  | NaN => "nan"
  end.

End PyFloat.

Import PyFloat.

(** ** Extractor: the value parser (lines 17-38) *)

Import Re.

(** [R\$\s*\d{1,3}(?:\.\d{3})*,\d{2}], compiled with [re.IGNORECASE]. *)
Definition BR_PRICE_RE : regex :=
  Seq (Lit "R") (Seq (Lit "$") (Seq (Star Space) (Seq (OneToThree Digit)
    (Seq (Star (Seq (Lit ".") (Times 3 Digit))) (Seq (Lit ",") (Times 2 Digit)))))).

Definition BR_PRICE_RE_search (s : str) : option str := search true BR_PRICE_RE s.

Definition _fmt_brl (val : pyfloat) : str :=
  PyStr.replace "X" "." (PyStr.replace "." "," (PyStr.replace "," "X"
    ("R$ " ++ format_2f val))).

Definition _parse_brl_price_text_to_float (text : str) : option pyfloat :=
  if negb (PyStr.truthy text) then None
  else
    match BR_PRICE_RE_search text with
    | None => None
    | Some raw =>
        let num := PyStr.strip (PyStr.replace "R$" [] raw) in
        let num := PyStr.replace "," "." (PyStr.replace "." [] num) in
        float_of_str num
    end.

(** ** JSON values and [json.loads] *)

Module Json.

Inductive json :=
| JNull
| JBool (b : bool)
| JInt (z : Z)
| JFloat (f : pyfloat)
| JStr (s : str)
| JList (items : list json)
| JDict (items : list (str * json)).

(** Truth value of a decoded value, as [if x:] takes it. *)
Definition truthy (j : json) : bool :=
  match j with
  | JNull => false
  | JBool b => b
  | JInt z => negb (Z.eqb z 0)
  | JFloat (Fin _ q) => negb (is_zero q)
  | JFloat _ => true
  | JStr s => PyStr.truthy s
  | JList l => match l with [] => false | _ => true end
  | JDict d => match d with [] => false | _ => true end
  end.

(** [d.get(key)] on the items of a dict. *)
Fixpoint dict_get (key : str) (d : list (str * json)) : option json :=
  match d with
  | [] => None
  | (k, v) :: d' => if PyStr.eqb k key then Some v else dict_get key d'
  end.

(** [d[key] = v]: a key already present keeps its place. *)
Fixpoint dict_set (key : str) (v : json) (d : list (str * json)) : list (str * json) :=
  match d with
  | [] => [(key, v)]
  | (k, w) :: d' =>
      if PyStr.eqb k key then (k, v) :: d' else (k, w) :: dict_set key v d'
  end.

Definition is_ws (c : ascii) : bool :=
  let n := nat_of_ascii c in
  Nat.eqb n 32 || Nat.eqb n 9 || Nat.eqb n 10 || Nat.eqb n 13.

Fixpoint skip_ws (s : str) : str :=
  match s with
  | c :: s' => if is_ws c then skip_ws s' else s
  | [] => []
  end.

Fixpoint take_digits (s : str) : str * str :=
  match s with
  | c :: s' =>
      if PyStr.is_digit c then let '(ds, r) := take_digits s' in (c :: ds, r)
      else ([], s)
  | [] => ([], [])
  end.

(** The number at the head of [s], as the scanner's pattern reads it: an
    optional minus sign, then 0 or a digit run that does not start with 0,
    then an optional fraction (a dot and digits), then an optional exponent
    (e or E, an optional sign, digits). *)
Definition parse_number (s : str) : option (json * str) :=
  let '(neg, s1) :=
    match s with
    | "-"%char :: t => (true, t)
    | _ => (false, s)
    end in
  let '(ip, r1) :=
    match s1 with
    | "0"%char :: t => (["0"%char], t)
    | _ => take_digits s1
    end in
  match ip with
  | [] => None
  | _ =>
      let '(fp, r2) :=
        match r1 with
        | "."%char :: t =>
            match take_digits t with
            | ([], _) => ([], r1)
            | (ds, r) => ("."%char :: ds, r)
            end
        | _ => ([], r1)
        end in
      let '(ep, r3) :=
        match r2 with
        | c :: t =>
            if Ascii.eqb (PyStr.lower c) "e"%char then
              let '(sg, t1) :=
                match t with
                | "+"%char :: u => (["+"%char], u)
                | "-"%char :: u => (["-"%char], u)
                | _ => ([], t)
                end in
              match take_digits t1 with
              | ([], _) => ([], r2)
              | (ds, r) => (c :: sg ++ ds, r)
              end
            else ([], r2)
        | [] => ([], r2)
        end in
      match fp, ep with
      | [], [] =>
          let z := Z.of_N (N_of_digits ip) in
          Some (JInt (if neg then (- z)%Z else z), r3)
      | _, _ =>
          match float_of_str ((if neg then ("-" : str) else []) ++ ip ++ fp ++ ep) with
          | Some f => Some (JFloat f, r3)
          | None => None
          end
      end
  end.

(** One item of a string literal: a character as written, or the code
    unit of a [\uXXXX] escape. *)
Inductive str_item := Raw (c : ascii) | Unit16 (n : N).

Definition hex_val (c : ascii) : option N :=
  let n := nat_of_ascii c in
  if Nat.leb 48 n && Nat.leb n 57 then Some (N.of_nat (n - 48))
  else if Nat.leb 65 n && Nat.leb n 70 then Some (N.of_nat (n - 55))
  else if Nat.leb 97 n && Nat.leb n 102 then Some (N.of_nat (n - 87))
  else None.

Definition hex4 (a b c d : ascii) : option N :=
  match hex_val a, hex_val b, hex_val c, hex_val d with
  | Some x, Some y, Some z, Some w => Some (((x * 16 + y) * 16 + z) * 16 + w)%N
  | _, _, _, _ => None
  end.

(** The double quote character. *)
Definition dq : ascii := ascii_of_nat 34.

(** The character an escape letter stands for. *)
Definition escape (e : ascii) : option ascii :=
  if Ascii.eqb e dq then Some dq
  else if Ascii.eqb e "\" then Some "\"%char
  else if Ascii.eqb e "/" then Some "/"%char
  else if Ascii.eqb e "b" then Some (ascii_of_nat 8)
  else if Ascii.eqb e "f" then Some (ascii_of_nat 12)
  else if Ascii.eqb e "n" then Some (ascii_of_nat 10)
  else if Ascii.eqb e "r" then Some (ascii_of_nat 13)
  else if Ascii.eqb e "t" then Some (ascii_of_nat 9)
  else None.

(** The body of a string literal, after the opening quote (strict mode:
    a control character is an error). *)
Fixpoint string_items (s : str) : option (list str_item * str) :=
  match s with
  | [] => None
  | c :: t =>
      if Ascii.eqb c dq then Some ([], t)
      else if Ascii.eqb c "\" then
        match t with
        | e :: t1 =>
            if Ascii.eqb e "u" then
              match t1 with
              | a :: b :: c :: d :: t2 =>
                  match hex4 a b c d, string_items t2 with
                  | Some n, Some (its, r) => Some (Unit16 n :: its, r)
                  | _, _ => None
                  end
              | _ => None
              end
            else
              match escape e, string_items t1 with
              | Some x, Some (its, r) => Some (Raw x :: its, r)
              | _, _ => None
              end
        | [] => None
        end
      else if Nat.ltb (nat_of_ascii c) 32 then None
      else
        match string_items t with
        | Some (its, r) => Some (Raw c :: its, r)
        | None => None
        end
  end.

Definition byte_of_N (n : N) : ascii := ascii_of_N n.

(** UTF-8 bytes of a code point (a lone surrogate is written with the
    three-byte pattern). *)
Definition utf8 (cp : N) : str :=
  if (cp <? 128)%N then [byte_of_N cp]
  else if (cp <? 2048)%N then
    [byte_of_N (192 + cp / 64); byte_of_N (128 + cp mod 64)]
  else if (cp <? 65536)%N then
    [byte_of_N (224 + cp / 4096); byte_of_N (128 + (cp / 64) mod 64);
     byte_of_N (128 + cp mod 64)]
  else
    [byte_of_N (240 + cp / 262144); byte_of_N (128 + (cp / 4096) mod 64);
     byte_of_N (128 + (cp / 64) mod 64); byte_of_N (128 + cp mod 64)].

(** The text of a string literal: a high surrogate followed by a low one
    is one code point. *)
Fixpoint items_text (its : list str_item) : str :=
  match its with
  | [] => []
  | Raw c :: t => c :: items_text t
  | Unit16 hi :: t =>
      match t with
      | Unit16 lo :: t' =>
          if ((55296 <=? hi) && (hi <? 56320) && (56320 <=? lo) && (lo <? 57344))%N
          then utf8 (65536 + (hi - 55296) * 1024 + (lo - 56320)) ++ items_text t'
          else utf8 hi ++ items_text t
      | _ => utf8 hi ++ items_text t
      end
  end.

Definition parse_string (s : str) : option (str * str) :=
  match string_items s with
  | Some (its, r) => Some (items_text its, r)
  | None => None
  end.

(** The scanner: a value at the head of [s], and the unread rest. *)
Fixpoint parse_value (fuel : nat) (s : str) : option (json * str) :=
  match fuel with
  | O => None
  | S f =>
      match s with
      | "{"%char :: t =>
          match skip_ws t with
          | "}"%char :: r => Some (JDict [], r)
          | t' => parse_members f t' []
          end
      | "["%char :: t =>
          match skip_ws t with
          | "]"%char :: r => Some (JList [], r)
          | t' => parse_elements f t' []
          end
      | _ =>
          if PyStr.startswith [dq] s then
            match parse_string (skipn 1 s) with
            | Some (x, r) => Some (JStr x, r)
            | None => None
            end
          else if PyStr.startswith "null" s then Some (JNull, skipn 4 s)
          else if PyStr.startswith "true" s then Some (JBool true, skipn 4 s)
          else if PyStr.startswith "false" s then Some (JBool false, skipn 5 s)
          else
            match parse_number s with
            | Some x => Some x
            | None =>
                if PyStr.startswith "NaN" s then Some (JFloat NaN, skipn 3 s)
                else if PyStr.startswith "Infinity" s
                then Some (JFloat (Inf false), skipn 8 s)
                else if PyStr.startswith "-Infinity" s
                then Some (JFloat (Inf true), skipn 9 s)
                else None
            end
      end
  end
with parse_elements (fuel : nat) (s : str) (acc : list json) : option (json * str) :=
  match fuel with
  | O => None
  | S f =>
      match parse_value f s with
      | Some (v, r) =>
          match skip_ws r with
          | "]"%char :: r' => Some (JList (rev (v :: acc)), r')
          | ","%char :: r' => parse_elements f (skip_ws r') (v :: acc)
          | _ => None
          end
      | None => None
      end
  end
with parse_members (fuel : nat) (s : str) (acc : list (str * json)) : option (json * str) :=
  match fuel with
  | O => None
  | S f =>
      if PyStr.startswith [dq] s then
        match parse_string (skipn 1 s) with
        | Some (key, r) =>
            match skip_ws r with
            | ":"%char :: r1 =>
                match parse_value f (skip_ws r1) with
                | Some (v, r2) =>
                    let acc' := dict_set key v acc in
                    match skip_ws r2 with
                    | "}"%char :: r3 => Some (JDict acc', r3)
                    | ","%char :: r3 => parse_members f (skip_ws r3) acc'
                    | _ => None
                    end
                | None => None
                end
            | _ => None
            end
        | None => None
        end
      else None
  end.

(** [json.loads(s)]: [None] stands for the exception raised on a text
    that is not one JSON value between optional white space. *)
Definition json_loads (s : str) : option json :=
  match parse_value (2 * List.length s + 2) (skip_ws s) with
  | Some (v, r) => match skip_ws r with [] => Some v | _ => None end
  | None => None
  end.

End Json.

Import Json.

(** In the samples below a text that holds double quotes is written with
    the apostrophe in their place: [q "{'a': 1}"] is the text [{"a": 1}]. *)
Definition q (s : string) : str :=
  map (fun c => if Ascii.eqb c "'" then dq else c) (list_ascii_of_string s).

(** ** The parsed document and the [bs4] queries the extractor makes *)

Module Bs4.

(** The classes of string a tree built by [html.parser] holds. *)
Inductive strkind :=
| NavigableString | CData | Comment | Declaration | Doctype
| ProcessingInstruction | Script | Stylesheet | TemplateString
| RubyTextString | RubyParenthesisString.

Definition strkind_eqb (a b : strkind) : bool :=
  match a, b with
  | NavigableString, NavigableString | CData, CData | Comment, Comment
  | Declaration, Declaration | Doctype, Doctype
  | ProcessingInstruction, ProcessingInstruction | Script, Script
  | Stylesheet, Stylesheet | TemplateString, TemplateString
  | RubyTextString, RubyTextString
  | RubyParenthesisString, RubyParenthesisString => true
  | _, _ => false
  end.

(** A page element: a string, or a tag with its attributes (none of the
    attributes queried here is multi-valued) and its children.  The
    [BeautifulSoup] object is the tag named [[document]]. *)
Inductive node :=
| Str (kind : strkind) (text : str)
| Tag (name : str) (attrs : list (str * str)) (contents : list node).

(** [tag.descendants]: every element below, in document order. *)
Fixpoint descendants (n : node) : list node :=
  match n with
  | Str _ _ => []
  | Tag _ _ cs => flat_map (fun c => c :: descendants c) cs
  end.

(** [tag.get(key)] *)
Fixpoint attr_get (key : str) (attrs : list (str * str)) : option str :=
  match attrs with
  | [] => None
  | (k, v) :: rest => if PyStr.eqb k key then Some v else attr_get key rest
  end.

Definition get (n : node) (key : str) : option str :=
  match n with
  | Tag _ attrs _ => attr_get key attrs
  | Str _ _ => None
  end.

(** Does [n] pass the filter of [find(name, attrs)]?  No name stands for
    any tag; every listed attribute has to be there with that value. *)
Definition matches (name : option str) (filter : list (str * str)) (n : node) : bool :=
  match n with
  | Str _ _ => false
  | Tag nm attrs _ =>
      match name with
      | Some want => PyStr.eqb nm want
      | None => true
      end &&
      forallb (fun kv =>
                 match attr_get (fst kv) attrs with
                 | Some v => PyStr.eqb v (snd kv)
                 | None => false
                 end) filter
  end.

Definition find_all (soup : node) (name : str) (filter : list (str * str)) : list node :=
  List.filter (matches (Some name) filter) (descendants soup).

Definition find (soup : node) (name : str) (filter : list (str * str)) : option node :=
  hd_error (find_all soup name filter).

(** [soup.select_one('[key="value"]')] *)
Definition select_one_attr (soup : node) (key value : str) : option node :=
  hd_error (List.filter (matches None [(key, value)]) (descendants soup)).

(** [soup.title] *)
Definition title (soup : node) : option node := find soup "title" [].

(** [tag.string]: the only child when it is a string, the [.string] of
    the only child when it is a tag, nothing otherwise. *)
Fixpoint string (n : node) : option str :=
  match n with
  | Str _ s => Some s
  | Tag _ _ [c] => string c
  | Tag _ _ _ => None
  end.

(** The string classes [get_text] keeps for a tag of that name. *)
Definition interesting_string_types (name : str) : list strkind :=
  if PyStr.eqb name "script" then [Script]
  else if PyStr.eqb name "style" then [Stylesheet]
  else if PyStr.eqb name "template" then [TemplateString]
  else if PyStr.eqb name "rt" then [RubyTextString]
  else if PyStr.eqb name "rp" then [RubyParenthesisString]
  else [NavigableString; CData].

Definition kept (types : list strkind) (n : node) : option str :=
  match n with
  | Str k s => if existsb (strkind_eqb k) types then Some s else None
  | Tag _ _ _ => None
  end.

(** [tag._all_strings(strip)] *)
Definition all_strings (strip : bool) (n : node) : list str :=
  match n with
  | Str _ _ => []
  | Tag nm _ _ =>
      flat_map (fun d =>
                  match kept (interesting_string_types nm) d with
                  | Some s =>
                      if strip
                      then (let s' := PyStr.strip s in
                            if PyStr.truthy s' then [s'] else [])
                      else [s]
                  | None => []
                  end) (descendants n)
  end.

(** [tag.get_text(separator, strip=...)] *)
Definition get_text (n : node) (separator : str) (strip : bool) : str :=
  PyStr.join separator (all_strings strip n).

(** [tag.text] *)
Definition text (n : node) : str := get_text n [] false.

End Bs4.

Import Bs4.

(** ** Exceptions *)

Inductive exn := AttributeError.

Inductive res (A : Type) :=
| Ok (a : A)
| Raise (e : exn).

Arguments Ok {A} a.
Arguments Raise {A} e.

(** [a or b] on optional strings: [a] when it is there and not empty. *)
Definition str_or (a : option str) (b : str) : str :=
  match a with
  | Some s => if PyStr.truthy s then s else b
  | None => b
  end.

Definition opt_truthy (a : option str) : bool :=
  match a with
  | Some s => PyStr.truthy s
  | None => false
  end.

(** ** Extractor: JSON-LD blocks (lines 40-66) *)

Definition block := list (str * json).

(** [None] of Python is [JNull]: a failed decoding and the text [null]
    give the same result. *)
Definition _json_loads_flex (s : str) : json :=
  match json_loads s with
  | Some v => v
  | None => JNull
  end.

Definition is_dict (j : json) : option block :=
  match j with
  | JDict d => Some d
  | _ => None
  end.

(** [[x for x in data if isinstance(x, dict)]] *)
Fixpoint dicts_of (data : list json) : list block :=
  match data with
  | [] => []
  | x :: rest =>
      match is_dict x with
      | Some d => d :: dicts_of rest
      | None => dicts_of rest
      end
  end.

(** One turn of the loop of [_json_ld_blocks]: [blocks] is the list built
    so far. *)
Definition _json_ld_blocks_step (blocks : list block) (tag : node) : list block :=
  let txt := PyStr.strip (str_or (Bs4.string tag) (str_or (Some (text tag)) [])) in
  if negb (PyStr.truthy txt) then blocks
  else
    match _json_loads_flex txt with
    | JDict d => blocks ++ [d]
    | JList l => blocks ++ dicts_of l
    | _ => blocks
    end.

Definition _json_ld_blocks (soup : node) : list block :=
  fold_left _json_ld_blocks_step
    (find_all soup "script" [("type" : str, "application/ld+json" : str)]) [].

Fixpoint _extract_name_from_jsonld (blocks : list block) : res (option str) :=
  match blocks with
  | [] => Ok None
  | obj :: rest =>
      let typ := dict_get "@type" obj in
      match typ with
      | Some (JStr t) =>
          if PyStr.eqb t "Product" then
            match dict_get "name" obj with
            | Some nm =>
                if Json.truthy nm then
                  match nm with
                  | JStr s => Ok (PyStr.or_none (PyStr.strip s))
                  | _ => Raise AttributeError
                  end
                else _extract_name_from_jsonld rest
            | None => _extract_name_from_jsonld rest
            end
          else _extract_name_from_jsonld rest
      | _ => _extract_name_from_jsonld rest
      end
  end.

(** ** Extractor: the name cascade (lines 68-96) *)

Definition title_separators : list str := [" | " : str; " – " : str; " - " : str].

(** The loop over the separators, and the [return title] after it. *)
Fixpoint split_title (seps : list str) (title : str) : str :=
  match seps with
  | [] => title
  | sep :: rest =>
      if PyStr.contains sep title
      then PyStr.strip (PyStr.split_head sep title)
      else split_title rest title
  end.

(** Step 4, the title. *)
Definition name_from_title (soup : node) : option str :=
  match Bs4.title soup with
  | Some t =>
      if opt_truthy (Bs4.string t)
      then Some (split_title title_separators (PyStr.strip (str_or (Bs4.string t) [])))
      else None
  | None => None
  end.

(** Step 3 and on, the first h1. *)
Definition name_from_h1 (soup : node) : option str :=
  match find soup "h1" [] with
  | Some h1 =>
      let txt := get_text h1 " " true in
      if PyStr.truthy txt then Some txt else name_from_title soup
  | None => name_from_title soup
  end.

(** Step 2 and on, the og:title meta. *)
Definition name_from_og (soup : node) : option str :=
  match find soup "meta" [("property" : str, "og:title" : str)] with
  | Some og =>
      if opt_truthy (get og "content") then
        let val := PyStr.strip (str_or (get og "content") []) in
        if PyStr.truthy val then Some val else name_from_h1 soup
      else name_from_h1 soup
  | None => name_from_h1 soup
  end.

Definition _extract_name (soup : node) : res (option str) :=
  match _extract_name_from_jsonld (_json_ld_blocks soup) with
  | Raise e => Raise e
  | Ok name =>
      if opt_truthy name then Ok name else Ok (name_from_og soup)
  end.

(** ** Extractor: the price cascade (lines 98-154) *)

(** [(price_text, price_value, currency, source_hint)] *)
Definition price_result : Type :=
  option str * option pyfloat * option str * option str.

Definition found (val : pyfloat) (curr hint : str) : price_result :=
  (Some (_fmt_brl val), Some val, Some curr, Some hint).

(** [float(str(raw).replace(",", "."))] *)
Definition float_of_content (raw : str) : option pyfloat :=
  float_of_str (PyStr.replace "," "." raw).

(** The currency next to an amount: "BRL", unless the meta named [prop]
    has a content that is not blank. *)
Definition currency_of_meta (soup : node) (prop : str) : str :=
  match find soup "meta" [("property" : str, prop)] with
  | Some meta_curr =>
      if opt_truthy (get meta_curr "content") then
        str_or (Some (PyStr.strip (str_or (get meta_curr "content") "BRL"))) "BRL"
      else "BRL"
  | None => "BRL"
  end.

(** D) the pattern on the text of the whole page. *)
Definition price_from_dom (soup : node) : price_result :=
  let page_text := get_text soup " " true in
  match _parse_brl_price_text_to_float page_text with
  | Some p => found p "BRL" "regex-dom"
  | None => (None, None, None, None)
  end.

(** C) the loop over the other metas; D) after it. *)
Fixpoint price_from_other_metas (soup : node) (props : list str) : price_result :=
  match props with
  | [] => price_from_dom soup
  | prop :: rest =>
      match find soup "meta" [("property" : str, prop)] with
      | Some m =>
          if opt_truthy (get m "content") then
            match float_of_content (str_or (get m "content") []) with
            | Some val =>
                found val
                  (currency_of_meta soup (PyStr.replace ":amount" ":currency" prop))
                  (q "meta[property='" ++ prop ++ q "']")
            | None => price_from_other_metas soup rest
            end
          else price_from_other_metas soup rest
      | None => price_from_other_metas soup rest
      end
  end.

Definition other_metas : list str :=
  ["og:price:amount" : str; "product:sale_price:amount" : str].

(** B) the first element with itemprop="price"; C) after it. *)
Definition price_from_itemprop (soup : node) : price_result :=
  match select_one_attr soup "itemprop" "price" with
  | Some el =>
      let raw := str_or (get el "content") (get_text el " " true) in
      if PyStr.truthy raw then
        match float_of_content raw with
        | Some val => found val "BRL" (q "itemprop='price'")
        | None =>
            match _parse_brl_price_text_to_float raw with
            | Some p => found p "BRL" (q "itemprop='price' (regex)")
            | None => price_from_other_metas soup other_metas
            end
        end
      else price_from_other_metas soup other_metas
  | None => price_from_other_metas soup other_metas
  end.

(** A) the product:price:amount meta; B) after it. *)
Definition _extract_price_and_currency (soup : node) : price_result :=
  match find soup "meta" [("property" : str, "product:price:amount" : str)] with
  | Some meta_amount =>
      if opt_truthy (get meta_amount "content") then
        match float_of_content (str_or (get meta_amount "content") []) with
        | Some val =>
            found val (currency_of_meta soup "product:price:currency")
              (q "meta[property='product:price:amount']")
        | None => price_from_itemprop soup
        end
      else price_from_itemprop soup
  | None => price_from_itemprop soup
  end.

(** ** [parse_product] (lines 172-176) *)

(** The body of [parse_product] once the tree is built. *)
Definition parse_product_soup (soup : node) (url : option str)
  : res (option str * option str * option pyfloat) :=
  match _extract_name soup with
  | Raise e => Raise e
  | Ok name =>
      let '(price_text, price_value, currency, hint) := _extract_price_and_currency soup in
      Ok (url, name, price_value)
  end.


(** ** Readings of the results and of the specification *)

Definition price_text_of (r : price_result) : option str := fst (fst (fst r)).
Definition price_value_of (r : price_result) : option pyfloat := snd (fst (fst r)).

(** The JSON-LD script elements of a document, in document order. *)
Definition jsonld_scripts (soup : node) : list node :=
  find_all soup "script" [("type" : str, "application/ld+json" : str)].

(** The text of a script element, trimmed. *)
Definition script_text (tag : node) : str :=
  PyStr.strip (str_or (Bs4.string tag) (str_or (Some (text tag)) [])).

(** The mapping-typed values of a decoded block: the block itself when it
    is a mapping, its mapping-typed elements when it is an array. *)
Definition mapping_values (j : json) : list block :=
  match j with
  | JDict d => [d]
  | JList l => flat_map (fun x => match x with JDict d => [d] | _ => [] end) l
  | _ => []
  end.

(** [decodeStructuredBlocks] as the specification words it: every JSON-LD
    script element, in document order, gives the mapping-typed values of
    its decoded text, and nothing when the text does not decode. *)
Definition decodeStructuredBlocks (soup : node) : list block :=
  flat_map (fun tag =>
              match json_loads (script_text tag) with
              | Some j => mapping_values j
              | None => []
              end) (jsonld_scripts soup).

(** Is [obj] a block the scan of [_extract_name_from_jsonld] stops at: the
    type marker is "Product" and the name is there and true? *)
Definition named_product (obj : block) : bool :=
  match dict_get "@type" obj, dict_get "name" obj with
  | Some (JStr t), Some nm => PyStr.eqb t "Product" && Json.truthy nm
  | _, _ => false
  end.


(** The title is the only source of a name: no JSON-LD Product name, no
    og:title meta, no h1, and a title element whose text is [s]. *)
Definition only_title (soup : node) (s : str) : Prop :=
  _extract_name_from_jsonld (_json_ld_blocks soup) = Ok None /\
  find soup "meta" [("property" : str, "og:title" : str)] = None /\
  find soup "h1" [] = None /\
  exists t, Bs4.title soup = Some t /\ Bs4.string t = Some s.



(** ** Predicates the proofs and statements use *)

(** A result of the cascade: nothing at all, or the four fields of a price
    that was found. *)
Inductive price_shape : price_result -> Prop :=
| shape_absent : price_shape (None, None, None, None)
| shape_found (val : pyfloat) (curr hint : str) : price_shape (found val curr hint).

#[local] Hint Constructors price_shape : core.

Definition digits : str := "0123456789".

Definition all_digits (s : str) : Prop := Forall (fun c => PyStr.is_digit c = true) s.

Definition small (g : N) : Prop := (g < 1000)%N.

(** The three replacements of [_fmt_brl] on one character: a comma
    becomes a dot, a dot becomes a comma. *)
Definition swap_marks (c : ascii) : ascii :=
  if Ascii.eqb c "," then "."%char
  else if Ascii.eqb c "." then ","%char
  else if Ascii.eqb c "X" then "."%char
  else c.




(** The repeated group of the pattern: a dot and three digits. *)
Definition dot_group : regex := Seq (Lit ".") (Times 3 Digit).

(** What stops a digit part: the end, or a character that is neither a
    digit nor an underscore. *)
Definition ends_digitpart (rest : str) : Prop :=
  match rest with
  | [] => True
  | c :: _ => PyStr.is_digit c = false /\ Ascii.eqb c "_" = false
  end.

(** The texts a pattern matches, case ignored. *)
Inductive matches : regex -> str -> Prop :=
| matches_lit (c d : ascii) : lit_matches true c d = true -> matches (Lit c) [d]
| matches_digit (d : ascii) : PyStr.is_digit d = true -> matches Digit [d]
| matches_space (d : ascii) : PyStr.is_space d = true -> matches Space [d]
| matches_eps : matches Eps []
| matches_seq (r1 r2 : regex) (a b : str) :
    matches r1 a -> matches r2 b -> matches (Seq r1 r2) (a ++ b)
| matches_alt_l (r1 r2 : regex) (a : str) : matches r1 a -> matches (Alt r1 r2) a
| matches_alt_r (r1 r2 : regex) (a : str) : matches r2 a -> matches (Alt r1 r2) a
| matches_star_nil (r : regex) : matches (Star r) []
| matches_star_cons (r : regex) (a b : str) :
    matches r a -> matches (Star r) b -> matches (Star r) (a ++ b).

(** A matcher is sound for [r] when a result can only come from the
    continuation, run on what is left after a text that [r] matches. *)
Definition sound_for (X : Type) (r : regex)
    (m : str -> (str -> option X) -> option X) : Prop :=
  forall s k x, m s k = Some x ->
  exists a rest, s = a ++ rest /\ matches r a /\ k rest = Some x.

(** The comma for the dot and the dot for the comma. *)
Definition exchange_marks (c : ascii) : ascii :=
  if Ascii.eqb c "," then "."%char
  else if Ascii.eqb c "." then ","%char
  else c.

(** Groups of digits, each after a dot. *)
Definition dotted (gs : list str) : str := flat_map (fun g => "."%char :: g) gs.

(** The texts [BR_PRICE_RE] matches: an R of either case, the dollar sign,
    white space, one to three digits, groups of a dot and three digits, a
    comma and two digits. *)
Inductive price_match : str -> Prop :=
| price_match_intro (r : ascii) (ws top : str) (gs : list str) (c1 c2 : ascii) :
    r = "R"%char \/ r = "r"%char ->
    Forall (fun c => PyStr.is_space c = true) ws ->
    all_digits top -> 1 <= List.length top <= 3 ->
    Forall (fun g => all_digits g /\ List.length g = 3) gs ->
    PyStr.is_digit c1 = true -> PyStr.is_digit c2 = true ->
    price_match (r :: "$"%char :: ws ++ top ++ dotted gs ++ ","%char :: [c1; c2]).

(** The digits of a text, read as a number. *)
Definition digits_value (s : str) : N := N_of_digits (List.filter PyStr.is_digit s).


(** A text with no white space at either end. *)
Definition trimmed (s : str) : Prop :=
  match s with [] => True | c :: _ => PyStr.is_space c = false end /\
  match rev s with [] => True | c :: _ => PyStr.is_space c = false end.

(** ** Sample documents *)

Module Samples.

Definition elem (name : str) (attrs : list (str * str)) (cs : list node) : node :=
  Tag name attrs cs.

Definition txt (s : str) : node := Str NavigableString s.

Definition document (cs : list node) : node := Tag "[document]" [] cs.

Definition meta (prop content : str) : node :=
  elem "meta" [("property" : str, prop); ("content" : str, content)] [].

Definition jsonld (s : str) : node :=
  elem "script" [("type" : str, "application/ld+json" : str)] [Str Script s].

Definition page (head body : list node) : node :=
  document [elem "html" [] [elem "head" [] head; elem "body" [] body]].

(** <html></html> *)
Definition empty_page : node := document [elem "html" [] []].

Definition title_page : node :=
  page [elem "title" [] [txt "Widget - Acme | Store"]] [].


Definition amount_usd_page : node :=
  page [meta "product:price:amount" "129.90"; meta "product:price:currency" " USD "] [].

Definition text_price_page : node :=
  page [] [elem "p" [] [txt "Oferta: R$ 1.234,56 hoje"]].



Definition product_page : node :=
  page [jsonld (q "{'@type': 'Product', 'name': ' Blue Widget '}")]
       [elem "h1" [] [txt "Other heading"]].


Definition numeric_name_page : node :=
  page [jsonld (q "{'@type': 'Product', 'name': 123}")]
       [elem "h1" [] [txt "Other heading"]].

Definition bad_jsonld_page : node :=
  page [jsonld "{not valid json"; jsonld "  ";
        jsonld (q "[{'@type': 'Product', 'name': 'A'}, 7, [{'x': 1}], {'y': null}]")]
       [elem "h1" [] [txt "Other heading"]].

End Samples.

(** ** Checks of the embedding on small inputs *)

Example fmt_brl_12_34 : _fmt_brl (of_cents 1234) = "R$ 12,34".
Proof. vm_compute. reflexivity. Qed.

Example fmt_brl_big : _fmt_brl (of_cents 123456789) = "R$ 1.234.567,89".
Proof. vm_compute. reflexivity. Qed.

Example fmt_brl_zero : _fmt_brl (of_cents 5) = "R$ 0,05".
Proof. vm_compute. reflexivity. Qed.

Example fmt_brl_1000 : _fmt_brl (of_cents 100000) = "R$ 1.000,00".
Proof. vm_compute. reflexivity. Qed.

Example parse_brl_12_34 : _parse_brl_price_text_to_float "por R$ 12,34 a vista" = Some (of_cents 1234).
Proof. vm_compute. reflexivity. Qed.

Example parse_brl_big : _parse_brl_price_text_to_float "R$1.234.567,891" = Some (of_cents 123456789).
Proof. vm_compute. reflexivity. Qed.

Example parse_brl_lower : _parse_brl_price_text_to_float "r$ 12,34" = None.
Proof. vm_compute. reflexivity. Qed.

Example parse_brl_4digits : _parse_brl_price_text_to_float "R$ 1234,56" = None.
Proof. vm_compute. reflexivity. Qed.

Example float_examples :
  float_of_str " 129.90 " = Some (of_cents 12990) /\
  float_of_str "1_000.5e-1" = Some (of_cents 10005) /\
  float_of_str "-5" = Some (of_neg_cents 500) /\
  float_of_str "1.234.56" = None /\
  float_of_str "1__0" = None /\
  float_of_str ".5" = Some (of_cents 50) /\
  float_of_str "5." = Some (of_cents 500) /\
  float_of_str "." = None /\
  float_of_str "-Infinity" = Some (Inf true) /\
  float_of_str "R$ 12.34" = None.
Proof. vm_compute. repeat split; reflexivity. Qed.

Example json_loads_product :
  json_loads (q "{'@type': 'Product', 'name': 'Café', 'offers': [1, 2.50, null]}")
  = Some (JDict [("@type" : str, JStr "Product"); ("name" : str, JStr "Café");
                 ("offers" : str, JList [JInt 1; JFloat (of_cents 250); JNull])]).
Proof. vm_compute. reflexivity. Qed.

Example json_loads_bad : json_loads "{not valid json" = None.
Proof. vm_compute. reflexivity. Qed.

Example json_loads_extra : json_loads "{} x" = None /\ json_loads "[1,]" = None /\ json_loads "01" = None.
Proof. vm_compute. repeat split; reflexivity. Qed.

Example name_empty_page : _extract_name Samples.empty_page = Ok None.
Proof. vm_compute. reflexivity. Qed.

Example price_empty_page :
  _extract_price_and_currency Samples.empty_page = (None, None, None, None).
Proof. vm_compute. reflexivity. Qed.

Example name_product_page : _extract_name Samples.product_page = Ok (Some ("Blue Widget" : str)).
Proof. vm_compute. reflexivity. Qed.

Example blocks_bad_jsonld_page :
  _json_ld_blocks Samples.bad_jsonld_page
  = [[("@type" : str, JStr "Product"); ("name" : str, JStr "A")]; [("y" : str, JNull)]].
Proof. vm_compute. reflexivity. Qed.

Example price_amount_usd_page :
  _extract_price_and_currency Samples.amount_usd_page
  = (Some ("R$ 129,90" : str), Some (of_cents 12990), Some ("USD" : str),
     Some (q "meta[property='product:price:amount']")).
Proof. vm_compute. reflexivity. Qed.

Example price_text_price_page :
  _extract_price_and_currency Samples.text_price_page
  = (Some ("R$ 1.234,56" : str), Some (of_cents 123456), Some ("BRL" : str),
     Some ("regex-dom" : str)).
Proof. vm_compute. reflexivity. Qed.

(** ** The shape of a price result *)

(** Case analysis on the test the result hangs on. *)
Ltac shape_cases :=
  repeat match goal with
         | |- price_shape (match ?x with _ => _ end) => destruct x
         | |- price_shape (if ?x then _ else _) => destruct x
         end; auto.

Lemma price_from_dom_shape (soup : node) : price_shape (price_from_dom soup).
Proof.
  unfold price_from_dom. cbv zeta. shape_cases.
Qed.

Lemma price_from_other_metas_shape (soup : node) (props : list str) :
  price_shape (price_from_other_metas soup props).
Proof.
  induction props as [|prop rest IH]; simpl.
  - apply price_from_dom_shape.
  - shape_cases.
Qed.

Lemma price_from_itemprop_shape (soup : node) : price_shape (price_from_itemprop soup).
Proof.
  unfold price_from_itemprop.
  pose proof (price_from_other_metas_shape soup other_metas) as Hrest.
  cbv zeta. shape_cases.
Qed.

Lemma extract_price_shape (soup : node) : price_shape (_extract_price_and_currency soup).
Proof.
  unfold _extract_price_and_currency.
  pose proof (price_from_itemprop_shape soup) as Hrest.
  shape_cases.
Qed.

(** ** The JSON-LD decoder *)

Lemma dicts_of_mapping_values (l : list json) : dicts_of l = mapping_values (JList l).
Proof.
  simpl. induction l as [|x l IH]; simpl; [reflexivity|].
  destruct x; simpl; rewrite ?IH; reflexivity.
Qed.

Lemma json_loads_empty : json_loads [] = None.
Proof. reflexivity. Qed.

Lemma truthy_false_nil (s : str) : PyStr.truthy s = false -> s = [].
Proof. destruct s; simpl; congruence. Qed.

(** One turn of the loop appends what the specification says the element
    contributes. *)
Lemma json_ld_blocks_step_spec (blocks : list block) (tag : node) :
  _json_ld_blocks_step blocks tag =
  blocks ++ match json_loads (script_text tag) with
            | Some j => mapping_values j
            | None => []
            end.
Proof.
  unfold _json_ld_blocks_step. fold (script_text tag).
  destruct (PyStr.truthy (script_text tag)) eqn:Ht; simpl.
  - unfold _json_loads_flex.
    destruct (json_loads (script_text tag)) as [j|]; [|now rewrite app_nil_r].
    destruct j; try now rewrite app_nil_r.
    + now rewrite dicts_of_mapping_values.
    + reflexivity.
  - rewrite (truthy_false_nil _ Ht), json_loads_empty. now rewrite app_nil_r.
Qed.

Lemma fold_json_ld_blocks_step (tags : list node) (blocks : list block) :
  fold_left _json_ld_blocks_step tags blocks =
  blocks ++ flat_map (fun tag =>
                        match json_loads (script_text tag) with
                        | Some j => mapping_values j
                        | None => []
                        end) tags.
Proof.
  revert blocks. induction tags as [|tag tags IH]; intros blocks; simpl.
  - now rewrite app_nil_r.
  - rewrite IH, json_ld_blocks_step_spec, <- app_assoc. reflexivity.
Qed.

(** C9. For every document, [_json_ld_blocks] (a total function: it cannot
    raise) returns, in document order, exactly the mapping-typed values
    decoded from the JSON-LD script elements: a block that decodes to a
    mapping gives that mapping, a block that decodes to an array gives its
    mapping-typed elements, and an empty block or a block that is not valid
    JSON gives nothing. *)
Theorem json_ld_blocks_decodes (soup : node) :
  _json_ld_blocks soup = decodeStructuredBlocks soup.
Proof.
  unfold _json_ld_blocks, decodeStructuredBlocks, jsonld_scripts.
  now rewrite fold_json_ld_blocks_step.
Qed.

(** An element whose text is blank or is not valid JSON leaves the list
    built so far as it is. *)
Lemma json_ld_blocks_step_skips (blocks : list block) (tag : node) :
  json_loads (script_text tag) = None -> _json_ld_blocks_step blocks tag = blocks.
Proof.
  intros H. rewrite json_ld_blocks_step_spec, H. apply app_nil_r.
Qed.

(** ** The price cascade *)

(** C10. Whenever the price cascade returns a value, the price text it
    returns with it is [_fmt_brl] of that value: the text is written anew
    from the number, whatever the page had. *)
Theorem price_text_is_formatted_value (soup : node) (v : pyfloat) :
  price_value_of (_extract_price_and_currency soup) = Some v ->
  price_text_of (_extract_price_and_currency soup) = Some (_fmt_brl v).
Proof.
  destruct (extract_price_shape soup) as [|val curr hint]; cbn.
  - discriminate.
  - intros [= ->]. reflexivity.
Qed.

Lemma price_text_is_formatted_value_witness :
  price_value_of (_extract_price_and_currency Samples.text_price_page)
    = Some (of_cents 123456) /\
  price_text_of (_extract_price_and_currency Samples.text_price_page)
    = Some (_fmt_brl (of_cents 123456)).
Proof.
  split; [vm_compute; reflexivity|].
  apply (@price_text_is_formatted_value Samples.text_price_page (of_cents 123456)).
  vm_compute; reflexivity.
Defined.

(** ** Characters and digits *)

Lemma is_digit_cases (c : ascii) : PyStr.is_digit c = true -> In c digits.
Proof.
  unfold PyStr.is_digit. intros H.
  apply andb_prop in H as [H1 H2].
  apply Nat.leb_le in H1, H2.
  rewrite <- (ascii_nat_embedding c).
  remember (nat_of_ascii c) as n eqn:En. clear En c.
  do 48 (destruct n as [|n]; [lia|]).
  do 10 (destruct n as [|n]; [simpl; tauto|]).
  lia.
Qed.

(** A property of the ten digits holds of every character [\d] accepts. *)
Lemma digit_ind (P : ascii -> Prop) :
  Forall P digits -> forall c, PyStr.is_digit c = true -> P c.
Proof.
  intros HP c Hc. rewrite Forall_forall in HP. apply HP, is_digit_cases, Hc.
Qed.

Ltac by_digits c H :=
  revert c H; apply digit_ind; repeat constructor.

Lemma digit_char_is_digit (d : N) : (d < 10)%N -> PyStr.is_digit (digit_char d) = true.
Proof.
  intros H. unfold digit_char.
  assert (Hn : N.to_nat d < 10) by lia.
  remember (N.to_nat d) as n eqn:En. clear En H d.
  do 10 (destruct n as [|n]; [reflexivity|]). lia.
Qed.


Lemma digit_not_space (c : ascii) : PyStr.is_digit c = true -> PyStr.is_space c = false.
Proof. intros H. by_digits c H. Qed.

Lemma digit_lower (c : ascii) : PyStr.is_digit c = true -> PyStr.lower c = c.
Proof. intros H. by_digits c H. Qed.

(** The characters that matter around a digit are not digits. *)
Lemma digit_not_special (c : ascii) :
  PyStr.is_digit c = true ->
  Ascii.eqb c "+" = false /\ Ascii.eqb c "-" = false /\ Ascii.eqb c "_" = false /\
  Ascii.eqb c "." = false /\ Ascii.eqb c "," = false /\ Ascii.eqb c "X" = false /\
  Ascii.eqb c "R" = false /\ Ascii.eqb c "i" = false /\ Ascii.eqb c "n" = false /\
  Ascii.eqb c "e" = false.
Proof. intros H. by_digits c H; repeat split; reflexivity. Qed.

Lemma pad2_digits (n : N) : (n < 100)%N -> all_digits (pad2 n).
Proof.
  intros H. unfold pad2.
  repeat constructor; apply digit_char_is_digit.
  - apply N.Div0.div_lt_upper_bound; lia.
  - apply N.mod_lt; lia.
Qed.

Lemma pad3_digits (n : N) : (n < 1000)%N -> all_digits (pad3 n).
Proof.
  intros H. unfold pad3.
  repeat constructor; apply digit_char_is_digit.
  - apply N.Div0.div_lt_upper_bound; lia.
  - apply N.mod_lt; lia.
  - apply N.mod_lt; lia.
Qed.

Lemma digits_from_digits (fuel : nat) (n : N) (acc : str) :
  all_digits acc -> all_digits (digits_from fuel n acc).
Proof.
  revert n acc. induction fuel as [|fuel IH]; intros n acc Hacc; simpl.
  - constructor; [apply digit_char_is_digit, N.mod_lt; lia | exact Hacc].
  - destruct (n <? 10)%N.
    + constructor; [apply digit_char_is_digit, N.mod_lt; lia | exact Hacc].
    + apply IH. constructor; [apply digit_char_is_digit, N.mod_lt; lia | exact Hacc].
Qed.

Lemma str_of_N_digits (n : N) : all_digits (str_of_N n).
Proof. apply digits_from_digits. constructor. Qed.

(** *** The number a digit string writes *)









(** *** Groups of three digits *)

Lemma chunks_small (fuel : nat) (n : N) (acc : list N) :
  Forall small acc -> (n < 1000 ^ N.of_nat (S fuel))%N ->
  small (fst (chunks fuel n acc)) /\ Forall small (snd (chunks fuel n acc)).
Proof.
  revert n acc. induction fuel as [|fuel IH]; intros n acc Hacc Hn.
  - simpl in *. split; [exact Hn | exact Hacc].
  - simpl chunks. destruct (N.ltb_spec n 1000) as [Hlt|Hge].
    + split; [exact Hlt | exact Hacc].
    + apply IH.
      * constructor; [apply N.mod_lt; lia | exact Hacc].
      * rewrite Nat2N.inj_succ, N.pow_succ_r' in Hn.
        apply N.Div0.div_lt_upper_bound. lia.
Qed.


Lemma pow1000_log2 (n : N) : (n < 1000 ^ N.of_nat (S (N.to_nat (N.log2 n))))%N.
Proof.
  rewrite Nat2N.inj_succ, N2Nat.id.
  destruct n as [|p]; [reflexivity|].
  pose proof (N.log2_spec (N.pos p) ltac:(lia)) as [_ H].
  eapply N.lt_le_trans; [exact H|].
  apply N.pow_le_mono_l. lia.
Qed.

Lemma split_groups_small (n : N) :
  small (fst (split_groups n)) /\ Forall small (snd (split_groups n)).
Proof. apply chunks_small; [constructor | apply pow1000_log2]. Qed.






(** *** Rounding to cents *)


(** ** Strings *)

(** Replacing a one-character text is a character-wise substitution. *)
Lemma replace_char (a : ascii) (new s : str) :
  PyStr.replace [a] new s = flat_map (fun c => if Ascii.eqb a c then new else [c]) s.
Proof.
  unfold PyStr.replace. induction s as [|c s IH]; [reflexivity|].
  cbn [PyStr.replace_from PyStr.startswith flat_map List.length Nat.sub].
  destruct (Ascii.eqb a c); cbn [andb]; rewrite IH; reflexivity.
Qed.

(** A text in which the first character of [old] does not occur is left
    as it is. *)
Lemma replace_absent (a : ascii) (old new s : str) :
  Forall (fun c => Ascii.eqb a c = false) s ->
  PyStr.replace_from (a :: old) new 0 s = s.
Proof.
  induction 1 as [|c s Hc Hs IH]; [reflexivity|].
  cbn [PyStr.replace_from PyStr.startswith]. rewrite Hc, IH. reflexivity.
Qed.

Lemma flat_map_keep (f : ascii -> str) (s : str) :
  Forall (fun c => f c = [c]) s -> flat_map f s = s.
Proof.
  induction 1 as [|c s Hc Hs IH]; [reflexivity|].
  cbn [flat_map]. rewrite Hc, IH. reflexivity.
Qed.

Lemma lstrip_keep (c : ascii) (s : str) :
  PyStr.is_space c = false -> PyStr.lstrip (c :: s) = c :: s.
Proof. intros H. cbn [PyStr.lstrip]. now rewrite H. Qed.

Lemma rstrip_keep (s : str) (c : ascii) :
  PyStr.is_space c = false -> PyStr.rstrip (s ++ [c]) = s ++ [c].
Proof.
  intros H. unfold PyStr.rstrip. rewrite rev_app_distr. cbn [rev app].
  rewrite lstrip_keep by exact H.
  change (c :: rev s) with ([c] ++ rev s).
  rewrite rev_app_distr, rev_involutive. reflexivity.
Qed.

(** A text that neither starts nor ends with white space is its own
    [strip]. *)
Lemma strip_keep (a c : ascii) (s : str) :
  PyStr.is_space a = false -> PyStr.is_space c = false ->
  PyStr.strip (a :: s ++ [c]) = a :: s ++ [c].
Proof.
  intros Ha Hc. unfold PyStr.strip. rewrite lstrip_keep by exact Ha.
  change (a :: s ++ [c]) with ((a :: s) ++ [c]). apply rstrip_keep, Hc.
Qed.

Lemma firstn_prefix (a b : str) :
  firstn (List.length (a ++ b) - List.length b) (a ++ b) = a.
Proof.
  rewrite length_app, Nat.add_sub.
  rewrite firstn_app, Nat.sub_diag, firstn_all. cbn [firstn]. apply app_nil_r.
Qed.

(** *** What [_fmt_brl] writes *)

Lemma replace_chain (s : str) :
  PyStr.replace "X" "." (PyStr.replace "." "," (PyStr.replace "," "X" s))
  = map swap_marks s.
Proof.
  cbn [list_ascii_of_string]. rewrite !replace_char.
  induction s as [|c s IH]; [reflexivity|].
  cbn [flat_map map]. rewrite <- IH. clear IH. unfold swap_marks.
  rewrite (Ascii.eqb_sym c ","), (Ascii.eqb_sym c "."), (Ascii.eqb_sym c "X").
  destruct (Ascii.eqb "," c) eqn:E1.
  - cbn. reflexivity.
  - cbn [app flat_map]. destruct (Ascii.eqb "." c) eqn:E2.
    + cbn. reflexivity.
    + cbn [app flat_map]. destruct (Ascii.eqb "X" c) eqn:E3; reflexivity.
Qed.





(** ** Matching the price pattern *)

Section Matching.
Variable X : Type.
Implicit Types (k : str -> option X) (s : str).













End Matching.




(** ** Reading a price text back *)

Lemma sep_groups_forall (P : ascii -> Prop) (sep : ascii) (gs : list N) :
  P sep -> (forall c, PyStr.is_digit c = true -> P c) -> Forall small gs ->
  Forall P (sep_groups sep gs).
Proof.
  intros Hsep Hdig. unfold sep_groups. induction 1 as [|g gs Hg Hgs IH]; cbn [flat_map].
  - constructor.
  - change (sep :: pad3 g) with ([sep] ++ pad3 g). rewrite <- app_assoc.
    apply Forall_app; split; [now constructor|].
    apply Forall_app; split; [|exact IH].
    eapply Forall_impl; [|exact (pad3_digits Hg)]. exact Hdig.
Qed.

Lemma digits_forall (P : ascii -> Prop) (s : str) :
  (forall c, PyStr.is_digit c = true -> P c) -> all_digits s -> Forall P s.
Proof. intros H Hs. eapply Forall_impl; [|exact Hs]. exact H. Qed.



Lemma keep_digits_not (a : ascii) (new s : str) :
  PyStr.is_digit a = false -> all_digits s ->
  flat_map (fun c => if Ascii.eqb a c then new else [c]) s = s.
Proof.
  intros Ha Hs. apply flat_map_keep. eapply Forall_impl; [|exact Hs].
  intros c Hc. cbv beta in *. destruct (Ascii.eqb_spec a c) as [->|]; [congruence|reflexivity].
Qed.


(** *** [float] on digits, a dot and two digits *)

Lemma pystr_eqb_head (a b : ascii) (s t : str) :
  Ascii.eqb a b = false -> PyStr.eqb (a :: s) (b :: t) = false.
Proof.
  intros H. unfold PyStr.eqb. destruct (list_eq_dec ascii_dec (a :: s) (b :: t)) as [E|]; [|reflexivity].
  injection E as -> _. now rewrite Ascii.eqb_refl in H.
Qed.

Lemma digitpart_digits (ds rest : str) :
  all_digits ds -> ends_digitpart rest -> digitpart (ds ++ rest) = (ds, rest).
Proof.
  intros Hds Hrest. induction Hds as [|d ds Hd Hds IH].
  - destruct rest as [|c rest]; [reflexivity|].
    cbn [app digitpart]. destruct Hrest as [-> _]. reflexivity.
  - cbn [app digitpart]. rewrite Hd.
    assert (Hu : match ds ++ rest with
                 | u :: _ => Ascii.eqb u "_" = false
                 | [] => True
                 end).
    { destruct ds as [|u ds]; cbn [app].
      - destruct rest as [|c rest]; [exact I | apply Hrest].
      - inversion_clear Hds as [|? ? Hu' _].
        now destruct (digit_not_special u Hu') as (_ & _ & Hu'' & _). }
    destruct (ds ++ rest) as [|u [|d2 s'']] eqn:E.
    + now rewrite IH.
    + now rewrite IH.
    + rewrite Hu. cbn [andb]. now rewrite IH.
Qed.

Lemma float_of_str_two_decimals (ip : str) (c1 c2 : ascii) :
  all_digits ip -> ip <> [] ->
  PyStr.is_digit c1 = true -> PyStr.is_digit c2 = true ->
  float_of_str (ip ++ "."%char :: [c1; c2])
  = Some (of_cents (N_of_digits (ip ++ [c1; c2]))).
Proof.
  intros Hip Hne H1 H2. destruct ip as [|a ip]; [congruence|].
  inversion Hip as [|? ? Ha Hip']; subst.
  destruct (digit_not_special a Ha) as (Hplus & Hminus & _ & _ & _ & _ & _ & Hi & Hn & _).
  unfold float_of_str.
  replace (PyStr.strip ((a :: ip) ++ "."%char :: [c1; c2]))
    with ((a :: ip) ++ "."%char :: [c1; c2]).
  2:{ change ((a :: ip) ++ "."%char :: [c1; c2])
        with (a :: ip ++ ("."%char :: [c1]) ++ [c2]).
      rewrite app_assoc. symmetry.
      apply strip_keep; now apply digit_not_space. }
  cbn [app take_sign]. rewrite Hplus, Hminus.
  cbn [map]. rewrite (digit_lower a Ha).
  cbn [list_ascii_of_string].
  rewrite !pystr_eqb_head by assumption. cbn [orb].
  change (a :: ip ++ "."%char :: [c1; c2]) with ((a :: ip) ++ "."%char :: [c1; c2]).
  rewrite digitpart_digits; [|exact Hip|split; reflexivity].
  cbn [fraction]. rewrite Ascii.eqb_refl.
  change [c1; c2] with ([c1; c2] ++ []) at 1.
  rewrite digitpart_digits; [|repeat constructor; assumption|exact I].
  cbn [app exponent List.length]. reflexivity.
Qed.


Ltac side := first [reflexivity | assumption | repeat constructor; assumption].

Lemma replace_currency_symbol (s : str) :
  PyStr.replace "R$" [] ("R$" ++ s) = PyStr.replace_from "R$" [] 0 s.
Proof. reflexivity. Qed.



(** ** The value parser: the round trip *)



(** ** The price cascade: value and text *)




(** ** The price cascade: the amount meta *)





(** ** The price cascade: the text of the page *)






(** ** The name cascade *)

Lemma extract_name_only_title (soup : node) (s : str) :
  only_title soup s ->
  _extract_name soup
  = Ok (if PyStr.truthy s
        then Some (split_title title_separators (PyStr.strip s))
        else None).
Proof.
  intros (Hld & Hog & Hh1 & t & Ht & Hs).
  unfold _extract_name. rewrite Hld. cbn [opt_truthy].
  unfold name_from_og. rewrite Hog.
  unfold name_from_h1. rewrite Hh1.
  unfold name_from_title. rewrite Ht, Hs.
  destruct s; reflexivity.
Qed.

(** C3 (amended). For a document whose title text is
    "Widget - Acme | Store" and which has no JSON-LD Product name, no
    og:title meta and no h1, name extraction returns "Widget - Acme": the
    separators are tried in the order " | ", " – ", " - ", and the title is
    cut at the first of them that occurs in it. *)
Theorem title_split_by_priority (soup : node) :
  only_title soup "Widget - Acme | Store" ->
  _extract_name soup = Ok (Some ("Widget - Acme" : str)).
Proof.
  intros H. rewrite (extract_name_only_title H). vm_compute; reflexivity.
Qed.

Lemma title_split_by_priority_witness :
  _extract_name Samples.title_page = Ok (Some ("Widget - Acme" : str)).
Proof.
  apply title_split_by_priority.
  repeat split; try (vm_compute; reflexivity).
  exists (Samples.elem "title" [] [Samples.txt "Widget - Acme | Store"]).
  split; vm_compute; reflexivity.
Defined.

(** C3 as stated fails: on such a document the name is not "Widget". *)
Lemma title_split_counterexample :
  ~ (forall soup, only_title soup "Widget - Acme | Store" ->
                  _extract_name soup = Ok (Some ("Widget" : str))).
Proof.
  intros H. specialize (H Samples.title_page).
  assert (Ht : only_title Samples.title_page "Widget - Acme | Store").
  { repeat split; try (vm_compute; reflexivity).
    exists (Samples.elem "title" [] [Samples.txt "Widget - Acme | Store"]).
    split; vm_compute; reflexivity. }
  specialize (H Ht). vm_compute in H. discriminate H.
Qed.

(** The scan of the blocks passes over those that are not a Product with
    a true name. *)
Lemma extract_name_from_jsonld_skip (b : block) (rest : list block) :
  named_product b = false ->
  _extract_name_from_jsonld (b :: rest) = _extract_name_from_jsonld rest.
Proof.
  unfold named_product. cbn [_extract_name_from_jsonld].
  destruct (dict_get "@type" b) as [[| | | |t| |]|]; try reflexivity.
  destruct (PyStr.eqb t "Product"); [|reflexivity].
  destruct (dict_get "name" b) as [nm|]; [|reflexivity].
  cbn [andb]. now intros ->.
Qed.





(** C2. The claim holds of the specification and fails on the code: on a
    document whose JSON-LD Product block has a number for its name, name
    extraction raises, and so does [parse_product]. *)
Theorem extract_name_raises_on_numeric_name :
  _json_ld_blocks Samples.numeric_name_page
    = [[("@type" : str, JStr "Product"); ("name" : str, JInt 123)]] /\
  _extract_name_from_jsonld (_json_ld_blocks Samples.numeric_name_page)
    = Raise AttributeError /\
  _extract_name Samples.numeric_name_page = Raise AttributeError /\
  parse_product_soup Samples.numeric_name_page None = Raise AttributeError.
Proof. repeat split; vm_compute; reflexivity. Qed.

(** ** [parse_product] *)




(** ** What the matcher finds is in the language of the pattern *)

Section Soundness.
Variable X : Type.
Implicit Types (k : str -> option X) (s : str).

Lemma star_loop_sound (r : regex) (m : str -> (str -> option X) -> option X) :
  sound_for r m ->
  forall fuel s k x, star_loop m k fuel s = Some x ->
  exists a rest, s = a ++ rest /\ matches (Star r) a /\ k rest = Some x.
Proof.
  intros Hm. induction fuel as [|fuel IH]; intros s k x H; cbn [star_loop] in H.
  - exists [], s. repeat split; [constructor | exact H].
  - destruct (m s _) as [y|] eqn:E.
    + injection H as ->.
      apply Hm in E as (a & rest & -> & Ha & Hk).
      destruct (Nat.ltb _ _); [|discriminate].
      apply IH in Hk as (b & rest' & -> & Hb & Hk).
      exists (a ++ b), rest'. rewrite app_assoc. repeat split; [|exact Hk].
      now constructor.
    + exists [], s. repeat split; [constructor | exact H].
Qed.

Lemma rmatch_sound (r : regex) : sound_for r (rmatch true (X:=X) r).
Proof.
  induction r as [c| | | |r1 IH1 r2 IH2|r1 IH1 r2 IH2|r IH]; intros s k x H;
    cbn [rmatch] in H.
  - destruct s as [|d s]; [discriminate|].
    destruct (lit_matches true c d) eqn:E; [|discriminate].
    exists [d], s. repeat split; [now constructor | exact H].
  - destruct s as [|d s]; [discriminate|].
    destruct (PyStr.is_digit d) eqn:E; [|discriminate].
    exists [d], s. repeat split; [now constructor | exact H].
  - destruct s as [|d s]; [discriminate|].
    destruct (PyStr.is_space d) eqn:E; [|discriminate].
    exists [d], s. repeat split; [now constructor | exact H].
  - exists [], s. repeat split; [constructor | exact H].
  - apply IH1 in H as (a & rest & -> & Ha & H).
    apply IH2 in H as (b & rest' & -> & Hb & H).
    exists (a ++ b), rest'. rewrite app_assoc. repeat split; [|exact H].
    now constructor.
  - destruct (rmatch true r1 s k) as [y|] eqn:E.
    + injection H as ->. apply IH1 in E as (a & rest & -> & Ha & Hk).
      exists a, rest. repeat split; [now apply matches_alt_l | exact Hk].
    + apply IH2 in H as (a & rest & -> & Ha & Hk).
      exists a, rest. repeat split; [now apply matches_alt_r | exact Hk].
  - eapply star_loop_sound; [exact IH | exact H].
Qed.

End Soundness.

Lemma match_at_sound (r : regex) (s m : str) :
  match_at true r s = Some m -> matches r m /\ exists rest, s = m ++ rest.
Proof.
  unfold match_at. intros H.
  apply rmatch_sound in H as (a & rest & -> & Ha & H).
  rewrite firstn_prefix in H. injection H as <-.
  split; [exact Ha | now exists rest].
Qed.

Lemma search_sound (r : regex) (s m : str) :
  search true r s = Some m ->
  matches r m /\ exists pre rest, s = pre ++ m ++ rest.
Proof.
  induction s as [|c s IH]; cbn [search]; intros H.
  - destruct (match_at true r []) as [m'|] eqn:E; [|discriminate].
    injection H as ->. apply match_at_sound in E as [Hm [rest ->]].
    split; [exact Hm | now exists [], rest].
  - destruct (match_at true r (c :: s)) as [m'|] eqn:E.
    + injection H as ->. apply match_at_sound in E as [Hm [rest E]].
      split; [exact Hm | exists [], rest; exact E].
    + apply IH in H as [Hm (pre & rest & ->)].
      split; [exact Hm | now exists (c :: pre), rest].
Qed.

(** *** The shape of a match of the price pattern *)

Ltac all_chars d :=
  destruct d as [[] [] [] [] [] [] [] []]; vm_compute; intros; try discriminate; auto.

Lemma lit_R_inv (d : ascii) :
  lit_matches true "R" d = true -> d = "R"%char \/ d = "r"%char.
Proof. all_chars d. Qed.

Lemma lit_dollar_inv (d : ascii) : lit_matches true "$" d = true -> d = "$"%char.
Proof. all_chars d. Qed.

Lemma lit_dot_inv (d : ascii) : lit_matches true "." d = true -> d = "."%char.
Proof. all_chars d. Qed.

Lemma lit_comma_inv (d : ascii) : lit_matches true "," d = true -> d = ","%char.
Proof. all_chars d. Qed.

Lemma matches_seq_inv (r1 r2 : regex) (a : str) :
  matches (Seq r1 r2) a -> exists a1 a2, a = a1 ++ a2 /\ matches r1 a1 /\ matches r2 a2.
Proof. inversion 1; subst. eauto. Qed.

Lemma matches_lit_inv (c : ascii) (a : str) :
  matches (Lit c) a -> exists d, a = [d] /\ lit_matches true c d = true.
Proof. inversion 1; subst. eauto. Qed.

Lemma matches_digit_inv (a : str) :
  matches Digit a -> exists d, a = [d] /\ PyStr.is_digit d = true.
Proof. inversion 1; subst. eauto. Qed.

Lemma matches_times_digit (n : nat) (a : str) :
  matches (Times n Digit) a -> all_digits a /\ List.length a = n.
Proof.
  revert a. induction n as [|n IH]; intros a H; cbn [Times] in H.
  - inversion H; subst. split; [constructor | reflexivity].
  - apply matches_seq_inv in H as (a1 & a2 & -> & H1 & H2).
    apply matches_digit_inv in H1 as (d & -> & Hd).
    apply IH in H2 as [H2 <-]. split; [now constructor | reflexivity].
Qed.

Lemma matches_one_to_three_digits (a : str) :
  matches (OneToThree Digit) a -> all_digits a /\ 1 <= List.length a <= 3.
Proof.
  unfold OneToThree, Opt. intros H.
  apply matches_seq_inv in H as (a1 & a2 & -> & H1 & H2).
  apply matches_digit_inv in H1 as (d1 & -> & Hd1).
  inversion H2 as [| | | | |? ? ? H3|? ? ? H3| |]; subst.
  - apply matches_seq_inv in H3 as (b1 & b2 & -> & H4 & H5).
    apply matches_digit_inv in H4 as (d2 & -> & Hd2).
    inversion H5 as [| | | | |? ? ? H6|? ? ? H6| |]; subst.
    + apply matches_digit_inv in H6 as (d3 & -> & Hd3).
      split; [repeat constructor; assumption | cbn; lia].
    + inversion H6; subst. split; [repeat constructor; assumption | cbn; lia].
  - inversion H3; subst. split; [repeat constructor; assumption | cbn; lia].
Qed.

Lemma matches_star_space (a : str) :
  matches (Star Space) a -> Forall (fun c => PyStr.is_space c = true) a.
Proof.
  intros H. remember (Star Space) as r eqn:Er.
  induction H as [| | | | | | | |r' a b Ha _ Hb IH]; try discriminate Er.
  - constructor.
  - injection Er as ->. inversion Ha; subst.
    constructor; [assumption | now apply IH].
Qed.

Lemma matches_star_dot_groups (a : str) :
  matches (Star dot_group) a ->
  exists gs, a = dotted gs /\ Forall (fun g => all_digits g /\ List.length g = 3) gs.
Proof.
  intros H. remember (Star dot_group) as r eqn:Er.
  induction H as [| | | | | | | |r' a b Ha _ Hb IH]; try discriminate Er.
  - exists []. split; [reflexivity | constructor].
  - injection Er as ->. destruct (IH eq_refl) as (gs & -> & Hgs).
    unfold dot_group in Ha.
    apply matches_seq_inv in Ha as (a1 & g & -> & H1 & H2).
    apply matches_lit_inv in H1 as (d & -> & Hd). apply lit_dot_inv in Hd as ->.
    apply matches_times_digit in H2.
    exists (g :: gs). split; [|now constructor].
    reflexivity.
Qed.

Lemma matches_price (m : str) : matches BR_PRICE_RE m -> price_match m.
Proof.
  unfold BR_PRICE_RE. intros H.
  apply matches_seq_inv in H as (a1 & m1 & -> & H1 & H).
  apply matches_lit_inv in H1 as (r & -> & Hr). apply lit_R_inv in Hr.
  apply matches_seq_inv in H as (a2 & m2 & -> & H2 & H).
  apply matches_lit_inv in H2 as (d & -> & Hd). apply lit_dollar_inv in Hd as ->.
  apply matches_seq_inv in H as (ws & m3 & -> & Hws & H).
  apply matches_star_space in Hws.
  apply matches_seq_inv in H as (top & m4 & -> & Htop & H).
  apply matches_one_to_three_digits in Htop as [Htop Hlen].
  apply matches_seq_inv in H as (gs' & m5 & -> & Hgs & H).
  apply (matches_star_dot_groups (a:=gs')) in Hgs as (gs & -> & Hgs).
  apply matches_seq_inv in H as (a6 & cents & -> & H6 & Hc).
  apply matches_lit_inv in H6 as (d & -> & Hd). apply lit_comma_inv in Hd as ->.
  apply matches_times_digit in Hc as [Hc Hcl].
  destruct cents as [|c1 [|c2 [|]]]; try discriminate Hcl.
  inversion_clear Hc as [|? ? Hc1 Hc']. inversion_clear Hc' as [|? ? Hc2 _].
  cbn [app]. now constructor.
Qed.

Lemma search_price (s raw : str) :
  BR_PRICE_RE_search s = Some raw ->
  price_match raw /\ exists pre rest, s = pre ++ raw ++ rest.
Proof.
  intros H. apply search_sound in H as [Hm Hs]. split; [now apply matches_price | exact Hs].
Qed.

(** ** What the parser makes of a match *)

Lemma lstrip_spaces (ws s : str) :
  Forall (fun c => PyStr.is_space c = true) ws -> PyStr.lstrip (ws ++ s) = PyStr.lstrip s.
Proof.
  induction 1 as [|c ws Hc Hws IH]; [reflexivity|].
  cbn [app PyStr.lstrip]. now rewrite Hc.
Qed.

Lemma space_not_digit (c : ascii) : PyStr.is_space c = true -> PyStr.is_digit c = false.
Proof.
  intros H. destruct (PyStr.is_digit c) eqn:E; [|reflexivity].
  apply digit_not_space in E. congruence.
Qed.

Lemma dotted_forall (P : ascii -> Prop) (gs : list str) :
  P "."%char -> (forall c, PyStr.is_digit c = true -> P c) ->
  Forall (fun g => all_digits g /\ List.length g = 3) gs ->
  Forall P (dotted gs).
Proof.
  intros Hdot Hdig. unfold dotted. induction 1 as [|g gs [Hg _] Hgs IH]; cbn [flat_map].
  - constructor.
  - cbn [app]. constructor; [exact Hdot|].
    apply Forall_app; split; [now apply digits_forall | exact IH].
Qed.

Lemma concat_groups_digits (gs : list str) :
  Forall (fun g => all_digits g /\ List.length g = 3) gs -> all_digits (List.concat gs).
Proof.
  induction 1 as [|g gs [Hg _] Hgs IH]; cbn [List.concat]; [constructor|].
  apply Forall_app; split; assumption.
Qed.

Lemma drop_dots_dotted (gs : list str) :
  Forall (fun g => all_digits g /\ List.length g = 3) gs ->
  flat_map (fun c => if Ascii.eqb "." c then [] else [c]) (dotted gs) = List.concat gs.
Proof.
  unfold dotted. induction 1 as [|g gs [Hg _] Hgs IH]; [reflexivity|].
  cbn [flat_map List.concat]. rewrite flat_map_app, IH. cbn [flat_map app].
  rewrite Ascii.eqb_refl. cbn [app].
  now rewrite (@keep_digits_not "." [] g) by (reflexivity || assumption).
Qed.

(** The two replacements after [strip], on the part of a match that
    follows the white space. *)
Lemma undress_match (top : str) (gs : list str) (cents : str) :
  all_digits top -> Forall (fun g => all_digits g /\ List.length g = 3) gs ->
  all_digits cents ->
  PyStr.replace "," "." (PyStr.replace "." [] (top ++ dotted gs ++ ","%char :: cents))
  = (top ++ List.concat gs) ++ "."%char :: cents.
Proof.
  intros Htop Hgs Hc.
  change (list_ascii_of_string ",") with [","%char].
  change (list_ascii_of_string ".") with ["."%char].
  rewrite !replace_char.
  assert (E1 : flat_map (fun c => if Ascii.eqb "." c then [] else [c])
                 (top ++ dotted gs ++ ","%char :: cents)
               = top ++ List.concat gs ++ ","%char :: cents).
  { rewrite !flat_map_app, drop_dots_dotted by exact Hgs.
    rewrite (@keep_digits_not "." [] top) by (reflexivity || assumption).
    change (","%char :: cents) with ([","%char] ++ cents).
    rewrite flat_map_app, (@keep_digits_not "." [] cents) by (reflexivity || assumption).
    reflexivity. }
  rewrite E1, !flat_map_app.
  rewrite (@keep_digits_not "," ["."%char] top) by (reflexivity || assumption).
  rewrite (@keep_digits_not "," ["."%char] (List.concat gs))
    by (reflexivity || now apply concat_groups_digits).
  change (","%char :: cents) with ([","%char] ++ cents).
  rewrite flat_map_app, (@keep_digits_not "," ["."%char] cents) by (reflexivity || assumption).
  rewrite <- app_assoc. reflexivity.
Qed.

Lemma filter_digits_all (s : str) : all_digits s -> List.filter PyStr.is_digit s = s.
Proof.
  induction 1 as [|c s Hc Hs IH]; [reflexivity|].
  cbn [List.filter]. now rewrite Hc, IH.
Qed.

Lemma filter_digits_none (s : str) :
  Forall (fun c => PyStr.is_digit c = false) s -> List.filter PyStr.is_digit s = [].
Proof.
  induction 1 as [|c s Hc Hs IH]; [reflexivity|].
  cbn [List.filter]. now rewrite Hc, IH.
Qed.

Lemma filter_digits_dotted (gs : list str) :
  Forall (fun g => all_digits g /\ List.length g = 3) gs ->
  List.filter PyStr.is_digit (dotted gs) = List.concat gs.
Proof.
  unfold dotted. induction 1 as [|g gs [Hg _] Hgs IH]; [reflexivity|].
  cbn [flat_map List.concat app List.filter].
  change (PyStr.is_digit ".") with false. cbn iota.
  now rewrite List.filter_app, IH, (filter_digits_all Hg).
Qed.

(** The digits of a match are those of its groups and of its cents. *)
Lemma digits_of_match (r : ascii) (ws top : str) (gs : list str) (c1 c2 : ascii) :
  r = "R"%char \/ r = "r"%char ->
  Forall (fun c => PyStr.is_space c = true) ws ->
  all_digits top -> Forall (fun g => all_digits g /\ List.length g = 3) gs ->
  PyStr.is_digit c1 = true -> PyStr.is_digit c2 = true ->
  List.filter PyStr.is_digit (r :: "$"%char :: ws ++ top ++ dotted gs ++ ","%char :: [c1; c2])
  = (top ++ List.concat gs) ++ [c1; c2].
Proof.
  intros Hr Hws Htop Hgs H1 H2.
  assert (Hrd : PyStr.is_digit r = false) by (destruct Hr as [-> | ->]; reflexivity).
  cbn [List.filter]. rewrite Hrd. change (PyStr.is_digit "$") with false. cbn iota.
  rewrite !List.filter_app.
  rewrite filter_digits_none
    by (eapply Forall_impl; [|exact Hws]; apply space_not_digit).
  rewrite (filter_digits_all Htop), (filter_digits_dotted Hgs).
  cbn [List.filter]. change (PyStr.is_digit ",") with false. cbn iota.
  rewrite H1, H2. cbn [app]. now rewrite <- app_assoc.
Qed.

Lemma parse_of_search (text raw : str) :
  BR_PRICE_RE_search text = Some raw ->
  _parse_brl_price_text_to_float text
  = float_of_str (PyStr.replace "," "."
      (PyStr.replace "." [] (PyStr.strip (PyStr.replace "R$" [] raw)))).
Proof.
  intros H. unfold _parse_brl_price_text_to_float. rewrite H.
  destruct text as [|c text]; [|reflexivity].
  discriminate H.
Qed.

(** After an upper-case R the match reads as the number its digits
    write, in hundredths. *)
Lemma parse_upper_match (ws top : str) (gs : list str) (c1 c2 : ascii) :
  Forall (fun c => PyStr.is_space c = true) ws ->
  all_digits top -> 1 <= List.length top <= 3 ->
  Forall (fun g => all_digits g /\ List.length g = 3) gs ->
  PyStr.is_digit c1 = true -> PyStr.is_digit c2 = true ->
  float_of_str (PyStr.replace "," "." (PyStr.replace "." []
    (PyStr.strip (PyStr.replace "R$" []
       ("R"%char :: "$"%char :: ws ++ top ++ dotted gs ++ ","%char :: [c1; c2])))))
  = Some (of_cents (N_of_digits ((top ++ List.concat gs) ++ [c1; c2]))).
Proof.
  intros Hws Htop Hlen Hgs H1 H2.
  destruct top as [|a top]; [cbn in Hlen; lia|].
  inversion Htop as [|? ? Ha Htop']; subst.
  assert (Hstrip :
    PyStr.strip (PyStr.replace "R$" []
       ("R"%char :: "$"%char :: ws ++ (a :: top) ++ dotted gs ++ ","%char :: [c1; c2]))
    = (a :: top) ++ dotted gs ++ ","%char :: [c1; c2]).
  { change ("R"%char :: "$"%char :: ws ++ (a :: top) ++ dotted gs ++ ","%char :: [c1; c2])
      with ("R$" ++ ws ++ (a :: top) ++ dotted gs ++ ","%char :: [c1; c2]).
    rewrite replace_currency_symbol.
    change (list_ascii_of_string "R$") with ("R"%char :: ["$"%char]).
    rewrite replace_absent.
    2:{ apply Forall_app; split.
        - eapply Forall_impl; [|exact Hws]. intros c Hc. cbv beta in *.
          destruct (Ascii.eqb_spec "R" c) as [<-|]; [discriminate Hc | reflexivity].
        - apply Forall_app; split; [|apply Forall_app; split].
          + apply digits_forall with (2 := Htop). intros c Hc.
            destruct (digit_not_special c Hc) as (_&_&_&_&_&_&HR&_).
            now rewrite Ascii.eqb_sym.
          + apply dotted_forall; [reflexivity | | exact Hgs]. intros c Hc.
            destruct (digit_not_special c Hc) as (_&_&_&_&_&_&HR&_).
            now rewrite Ascii.eqb_sym.
          + repeat constructor.
            * destruct (digit_not_special c1 H1) as (_&_&_&_&_&_&HR&_).
              now rewrite Ascii.eqb_sym.
            * destruct (digit_not_special c2 H2) as (_&_&_&_&_&_&HR&_).
              now rewrite Ascii.eqb_sym. }
    unfold PyStr.strip. rewrite lstrip_spaces by exact Hws.
    cbn [app]. rewrite lstrip_keep by now apply digit_not_space.
    assert (E : a :: top ++ dotted gs ++ ","%char :: [c1; c2]
                = (a :: top ++ dotted gs ++ ","%char :: [c1]) ++ [c2])
      by (cbn [app]; rewrite <- !app_assoc; reflexivity).
    rewrite E. apply rstrip_keep. now apply digit_not_space. }
  rewrite Hstrip, undress_match by side.
  apply float_of_str_two_decimals; try assumption.
  - apply Forall_app; split; [exact Htop | now apply concat_groups_digits].
  - discriminate.
Qed.

Lemma rstrip_head (c : ascii) (s : str) :
  PyStr.is_space c = false -> exists t, PyStr.rstrip (c :: s) = c :: t.
Proof.
  intros Hc. unfold PyStr.rstrip. cbn [rev].
  assert (H : forall l, exists l', PyStr.lstrip (l ++ [c]) = l' ++ [c]).
  { induction l as [|d l [l' IH]]; cbn [app PyStr.lstrip].
    - rewrite Hc. now exists [].
    - destruct (PyStr.is_space d); [now exists l' | now exists (d :: l)]. }
  destruct (H (rev s)) as [l' ->]. rewrite rev_app_distr. now exists (rev l').
Qed.

(** [float] rejects a text that, trimmed, starts with the letter r. *)
Lemma float_of_str_r (s t : str) :
  PyStr.strip s = "r"%char :: t -> float_of_str s = None.
Proof.
  intros H. unfold float_of_str. rewrite H. cbn [take_sign].
  change (Ascii.eqb "r" "+") with false. change (Ascii.eqb "r" "-") with false.
  cbn iota. cbn [map]. change (PyStr.lower "r") with "r"%char.
  cbn [list_ascii_of_string]. rewrite !pystr_eqb_head by reflexivity.
  cbn [orb digitpart]. change (PyStr.is_digit "r") with false. cbn iota.
  cbn [fraction]. change (Ascii.eqb "r" ".") with false. cbn iota.
  reflexivity.
Qed.

(** After a lower-case r the match does not read as a number. *)
Lemma parse_lower_match (ws top : str) (gs : list str) (c1 c2 : ascii) :
  Forall (fun c => PyStr.is_space c = true) ws ->
  all_digits top ->
  Forall (fun g => all_digits g /\ List.length g = 3) gs ->
  PyStr.is_digit c1 = true -> PyStr.is_digit c2 = true ->
  float_of_str (PyStr.replace "," "." (PyStr.replace "." []
    (PyStr.strip (PyStr.replace "R$" []
       ("r"%char :: "$"%char :: ws ++ top ++ dotted gs ++ ","%char :: [c1; c2])))))
  = None.
Proof.
  intros Hws Htop Hgs H1 H2.
  set (tail := "$"%char :: ws ++ top ++ dotted gs ++ ","%char :: [c1; c2]).
  assert (Hrep : PyStr.replace "R$" [] ("r"%char :: tail) = "r"%char :: tail).
  { unfold PyStr.replace.
    change (list_ascii_of_string "R$") with ("R"%char :: ["$"%char]).
    apply replace_absent. constructor; [reflexivity|].
    unfold tail. constructor; [reflexivity|].
    apply Forall_app; split.
    - eapply Forall_impl; [|exact Hws]. intros c Hc. cbv beta in *.
      destruct (Ascii.eqb_spec "R" c) as [<-|]; [discriminate Hc | reflexivity].
    - apply Forall_app; split; [|apply Forall_app; split].
      + apply digits_forall with (2 := Htop). intros c Hc.
        destruct (digit_not_special c Hc) as (_&_&_&_&_&_&HR&_).
        now rewrite Ascii.eqb_sym.
      + apply dotted_forall; [reflexivity | | exact Hgs]. intros c Hc.
        destruct (digit_not_special c Hc) as (_&_&_&_&_&_&HR&_).
        now rewrite Ascii.eqb_sym.
      + repeat constructor.
        * destruct (digit_not_special c1 H1) as (_&_&_&_&_&_&HR&_).
          now rewrite Ascii.eqb_sym.
        * destruct (digit_not_special c2 H2) as (_&_&_&_&_&_&HR&_).
          now rewrite Ascii.eqb_sym. }
  rewrite Hrep.
  unfold PyStr.strip. rewrite lstrip_keep by reflexivity.
  destruct (@rstrip_head "r" tail eq_refl) as [t ->].
  change (list_ascii_of_string ",") with [","%char].
  change (list_ascii_of_string ".") with ["."%char].
  rewrite !replace_char. cbn [flat_map].
  change (Ascii.eqb "." "r") with false. cbn iota. cbn [app flat_map].
  change (Ascii.eqb "," "r") with false. cbn iota. cbn [app].
  destruct (@rstrip_head "r"
              (flat_map (fun c => if Ascii.eqb "," c then ["."%char] else [c])
                 (flat_map (fun c => if Ascii.eqb "." c then [] else [c]) t)) eq_refl)
    as [t' Ht'].
  apply (@float_of_str_r _ t').
  unfold PyStr.strip. rewrite lstrip_keep by reflexivity. exact Ht'.
Qed.

(** ** The value parser: what it returns on any text *)





Lemma parse_some_inv (text : str) (v : pyfloat) :
  _parse_brl_price_text_to_float text = Some v ->
  exists t, BR_PRICE_RE_search text = Some ("R"%char :: t)
            /\ v = of_cents (digits_value ("R"%char :: t)).
Proof.
  intros H.
  destruct (BR_PRICE_RE_search text) as [raw|] eqn:E.
  - pose proof E as E'. apply search_price in E' as [Hm _].
    inversion Hm as [r ws top gs c1 c2 Hr Hws Htop Hlen Hgs H1 H2 Eraw].
    destruct Hr as [-> | ->].
    + rewrite <- Eraw in E. rewrite (parse_of_search _ E) in H.
      rewrite parse_upper_match in H by assumption.
      injection H as <-. eexists. split; [reflexivity|].
      unfold digits_value. now rewrite digits_of_match by (auto; now left).
    + rewrite <- Eraw in E. rewrite (parse_of_search _ E) in H.
      rewrite parse_lower_match in H by assumption. discriminate H.
  - unfold _parse_brl_price_text_to_float in H. rewrite E in H.
    destruct (negb _); discriminate H.
Qed.








(** X6. On a text without the dollar sign, the empty text among them, the
    parser returns nothing. *)
Theorem parse_needs_dollar_sign (text : str) :
  ~ In "$"%char text -> _parse_brl_price_text_to_float text = None.
Proof.
  intros Hno.
  destruct (_parse_brl_price_text_to_float text) as [v|] eqn:E; [|reflexivity].
  apply parse_some_inv in E as (t & Hs & _).
  apply search_price in Hs as [Hm (pre & rest & ->)].
  inversion Hm; subst. contradiction Hno.
  apply in_or_app. right. cbn. auto.
Qed.

Lemma parse_needs_dollar_sign_witness : _parse_brl_price_text_to_float "12,34 reais" = None.
Proof.
  apply parse_needs_dollar_sign. cbn. intuition discriminate.
Defined.

(** ** The price cascade: where a result comes from *)






(** X7. The cascade returns its four fields together: all four are there,
    or all four are absent. *)
Theorem price_fields_all_or_none (soup : node) :
  _extract_price_and_currency soup = (None, None, None, None) \/
  exists t v c h, _extract_price_and_currency soup = (Some t, Some v, Some c, Some h).
Proof.
  destruct (extract_price_shape soup) as [|val curr hint]; [now left|].
  right. unfold found. eauto.
Qed.





(** ** Trimmed texts *)





Lemma trimmed_cons_nonempty (s : str) :
  trimmed s -> s <> [] ->
  exists c t, s = c :: t /\ PyStr.is_space c = false.
Proof. intros [H _] Hne. destruct s as [|c t]; [congruence | eauto]. Qed.

















(** ** The name cascade: the scan of the JSON-LD blocks *)

(** The scan ends at a Product block with a true name. *)
Lemma extract_name_from_jsonld_stop (obj : block) (rest : list block) :
  named_product obj = true ->
  _extract_name_from_jsonld (obj :: rest)
  = match dict_get "name" obj with
    | Some (JStr s) => Ok (PyStr.or_none (PyStr.strip s))
    | _ => Raise AttributeError
    end.
Proof.
  unfold named_product. cbn [_extract_name_from_jsonld].
  destruct (dict_get "@type" obj) as [[| | | |t| |]|]; try discriminate.
  destruct (dict_get "name" obj) as [nm|]; [|discriminate].
  intros H. apply andb_prop in H as [-> ->]. destruct nm; reflexivity.
Qed.

Lemma extract_name_from_jsonld_prefix (pre rest : list block) :
  Forall (fun b => named_product b = false) pre ->
  _extract_name_from_jsonld (pre ++ rest) = _extract_name_from_jsonld rest.
Proof.
  induction 1 as [|b pre Hb Hpre IH]; [reflexivity|].
  cbn [app]. now rewrite extract_name_from_jsonld_skip.
Qed.

(** X13. The scan for a name consults no block after the first Product
    block with a true name: what follows that block does not change the
    result, even when that block's name is blank and a later one is not. *)
Theorem jsonld_scan_stops_at_first_named_product
    (pre post post' : list block) (obj : block) :
  Forall (fun b => named_product b = false) pre ->
  named_product obj = true ->
  _extract_name_from_jsonld (pre ++ obj :: post)
  = _extract_name_from_jsonld (pre ++ obj :: post').
Proof.
  intros Hpre Hobj.
  rewrite !extract_name_from_jsonld_prefix by exact Hpre.
  now rewrite !extract_name_from_jsonld_stop.
Qed.

Lemma jsonld_scan_stops_at_first_named_product_witness :
  _extract_name_from_jsonld
    [[("@type" : str, JStr "Product"); ("name" : str, JStr "  ")];
     [("@type" : str, JStr "Product"); ("name" : str, JStr "Widget")]]
  = _extract_name_from_jsonld
      [[("@type" : str, JStr "Product"); ("name" : str, JStr "  ")]].
Proof.
  apply (@jsonld_scan_stops_at_first_named_product []
           [[("@type" : str, JStr "Product"); ("name" : str, JStr "Widget")]] []
           [("@type" : str, JStr "Product"); ("name" : str, JStr "  ")]).
  - constructor.
  - vm_compute; reflexivity.
Defined.





(** ** The name cascade: the order of the sources *)





(** ** The price cascade: the second and third strategies *)






(** ** The JSON-LD decoder: where a block comes from *)

Lemma in_mapping_values (b : block) (j : json) :
  In b (mapping_values j) <-> j = JDict b \/ exists l, j = JList l /\ In (JDict b) l.
Proof.
  destruct j; cbn [mapping_values]; try (split; [intros [] | intros [H|(l & H & _)]; discriminate H]).
  - split.
    + intros H. right. exists items. split; [reflexivity|].
      apply in_flat_map in H as (x & Hx & Hb).
      destruct x; try contradiction. destruct Hb as [<-|[]]. exact Hx.
    + intros [H|(l & [= <-] & H)]; [discriminate H|].
      apply in_flat_map. exists (JDict b). split; [exact H | now left].
  - split.
    + intros [<-|[]]. now left.
    + intros [[= <-]|(l & H & _)]; [now left | discriminate H].
Qed.

(** X19. A block is among those [_json_ld_blocks] returns exactly when
    some JSON-LD script element of the document has a text that decodes to
    that mapping, or to an array with that mapping among its elements;
    mappings nested deeper are not returned. *)
Theorem json_ld_block_origin (soup : node) (b : block) :
  In b (_json_ld_blocks soup) <->
  exists tag j,
    In tag (find_all soup "script" [("type" : str, "application/ld+json" : str)]) /\
    json_loads (script_text tag) = Some j /\
    (j = JDict b \/ exists l, j = JList l /\ In (JDict b) l).
Proof.
  unfold _json_ld_blocks. rewrite fold_json_ld_blocks_step. cbn [app].
  rewrite in_flat_map. split.
  - intros (tag & Htag & Hb).
    destruct (json_loads (script_text tag)) as [j|] eqn:E; [|contradiction].
    exists tag, j. repeat split; [exact Htag | exact E | now apply in_mapping_values].
  - intros (tag & j & Htag & E & Hj).
    exists tag. split; [exact Htag|]. rewrite E. now apply in_mapping_values.
Qed.

Lemma json_ld_block_origin_witness :
  In [("y" : str, JNull)] (_json_ld_blocks Samples.bad_jsonld_page).
Proof.
  apply json_ld_block_origin.
  exists (Samples.jsonld
            (q "[{'@type': 'Product', 'name': 'A'}, 7, [{'x': 1}], {'y': null}]")),
         (JList [JDict [("@type" : str, JStr "Product"); ("name" : str, JStr "A")];
                 JInt 7; JList [JDict [("x" : str, JInt 1)]]; JDict [("y" : str, JNull)]]).
  split; [vm_compute; tauto|]. split; [vm_compute; reflexivity|].
  right. eexists. split; [reflexivity|]. cbn. tauto.
Defined.

(** ** [_fmt_brl]: the placeholder of the three replacements *)

Lemma format_2f_no_X (v : pyfloat) :
  Forall (fun c => Ascii.eqb c "X" = false) (format_2f v).
Proof.
  assert (Hdig : forall c, PyStr.is_digit c = true -> Ascii.eqb c "X" = false).
  { intros c Hc. now destruct (digit_not_special c Hc) as (_&_&_&_&_&HX&_). }
  destruct v as [neg qv|neg|]; cbn [format_2f].
  - apply Forall_app; split; [destruct neg; repeat constructor|].
    unfold grouped.
    destruct (split_groups_small (cents_of qv / 100)) as [_ Hgs].
    destruct (split_groups (cents_of qv / 100)) as [top gs]. cbn [snd] in Hgs.
    rewrite <- app_assoc. apply Forall_app; split.
    + apply digits_forall; [exact Hdig | apply str_of_N_digits].
    + apply Forall_app; split.
      * apply sep_groups_forall; [reflexivity | exact Hdig | exact Hgs].
      * cbn [list_ascii_of_string app]. constructor; [reflexivity|].
        apply digits_forall; [exact Hdig|]. apply pad2_digits, N.mod_lt. discriminate.
  - destruct neg; repeat constructor.
  - repeat constructor.
Qed.

(** X20. For every float, negative, infinite and NaN included, the three
    replacements of [_fmt_brl] do nothing but exchange the commas and the
    dots of the formatted number: the placeholder X never meets an X of
    the text. *)
Theorem fmt_brl_exchanges_marks (v : pyfloat) :
  _fmt_brl v = "R$ " ++ map exchange_marks (format_2f v).
Proof.
  unfold _fmt_brl. rewrite replace_chain, map_app.
  change (map swap_marks "R$ ") with (list_ascii_of_string "R$ "). f_equal.
  apply map_ext_in. intros c Hc.
  pose proof (format_2f_no_X v) as H. rewrite Forall_forall in H.
  specialize (H c Hc). unfold swap_marks, exchange_marks. now rewrite H.
Qed.
